(** * UK house-price heat map: postcode lookup and district aggregation

    A shallow embedding of the postcode lookup table
    (postcode_dataset.py: UKPostcodeDataset) and of the district
    aggregation shared by dash_app.py and heatmap_generator.py.

    Modelling conventions.
    - A Python [str] is a [string]; the development covers the ASCII
      alphabet (code points below 128), on which [str.upper],
      [str.strip] and [str.split] behave as written below.
    - A Python [float] that is not NaN is an exact rational [Qc]; the
      missing-value marker NaN is the separate value [PyNaN].  Sums and
      divisions are exact, where the program rounds to double precision.
    - A Python [dict] with string keys is a [gmap string _].
    - A call that may raise returns a [result]. *)

From Stdlib Require Import QArith Qcanon Ascii String Sorted.
From stdpp Require Import base option list gmap strings numbers.

Local Open Scope string_scope.
Local Open Scope list_scope.

(** ** Python values, exceptions *)

Inductive exn : Type :=
  | AttributeError
  | KeyError
  | ZeroDivisionError.

Inductive result (A : Type) : Type :=
  | Ok (a : A)
  | Raise (e : exn).
Arguments Ok {A} a.
Arguments Raise {A} e.

Definition bind {A B : Type} (r : result A) (k : A → result B) : result B :=
  match r with
  | Ok a => k a
  | Raise e => Raise e
  end.

Notation "x ←! r ;; k" := (bind r (λ x, k))
  (at level 100, r at next level, right associativity).

(** [mapM] runs a fallible function over a list, left to right, and stops
    at the first exception, as a Python [for] loop does. *)
Fixpoint mapM {A B : Type} (f : A → result B) (l : list A) : result (list B) :=
  match l with
  | [] => Ok []
  | a :: l' => b ←! f a ;; bs ←! mapM f l' ;; Ok (b :: bs)
  end.

(** A coordinate pair [(lat, lon)]. *)
Definition coord : Type := Qc * Qc.

(** The values a dataframe cell or a function argument can hold. *)
Inductive pyval : Type :=
  | PyNone
  | PyNaN
  | PyStr (s : string)
  | PyNum (q : Qc).

(** ** Python string operations (module [Py]) *)

Module Py.

(** [str.isspace] on one ASCII character: TAB, LF, VT, FF, CR,
    FS, GS, RS, US and the space. *)
Definition isspace (c : ascii) : bool :=
  let n := nat_of_ascii c in
  (((9 <=? n) && (n <=? 13)) || ((28 <=? n) && (n <=? 32)))%nat.

Definition is_upper (c : ascii) : bool :=
  let n := nat_of_ascii c in ((65 <=? n) && (n <=? 90))%nat.

Definition is_lower (c : ascii) : bool :=
  let n := nat_of_ascii c in ((97 <=? n) && (n <=? 122))%nat.

Definition is_digit (c : ascii) : bool :=
  let n := nat_of_ascii c in ((48 <=? n) && (n <=? 57))%nat.

Definition upper_char (c : ascii) : ascii :=
  if is_lower c then ascii_of_nat (nat_of_ascii c - 32)%nat else c.

(** [s.upper()] *)
Fixpoint upper (s : string) : string :=
  match s with
  | EmptyString => EmptyString
  | String c s' => String (upper_char c) (upper s')
  end.

(** [s.lstrip()] *)
Fixpoint lstrip (s : string) : string :=
  match s with
  | EmptyString => EmptyString
  | String c s' => if isspace c then lstrip s' else s
  end.

(** [s.rstrip()] *)
Fixpoint rstrip (s : string) : string :=
  match s with
  | EmptyString => EmptyString
  | String c s' =>
      match rstrip s' with
      | EmptyString => if isspace c then EmptyString else String c EmptyString
      | r => String c r
      end
  end.

(** [s.strip()] *)
Definition strip (s : string) : string := lstrip (rstrip s).

(** [s.replace(' ', '')] *)
Fixpoint remove_spaces (s : string) : string :=
  match s with
  | EmptyString => EmptyString
  | String c s' =>
      if Ascii.eqb c " "%char then remove_spaces s' else String c (remove_spaces s')
  end.

(** [s.split()]: the maximal runs of non-whitespace characters.  [cur]
    is the word being read, in reverse. *)
Fixpoint split_aux (cur : list ascii) (s : string) : list string :=
  match s with
  | EmptyString =>
      match cur with
      | [] => []
      | _ => [string_of_list_ascii (rev cur)]
      end
  | String c s' =>
      if isspace c then
        match cur with
        | [] => split_aux [] s'
        | _ => string_of_list_ascii (rev cur) :: split_aux [] s'
        end
      else split_aux (c :: cur) s'
  end.

Definition split (s : string) : list string := split_aux [] s.

Definition len (s : string) : nat := String.length s.

(** [s[:-k]] for [k > 0]: everything but the last [k] characters. *)
Definition slice_to_neg (k : nat) (s : string) : string :=
  substring 0 (len s - k)%nat s.

(** [s[-k:]] for [k > 0]: the last [k] characters (all of [s] when it is
    shorter). *)
Definition slice_from_neg (k : nat) (s : string) : string :=
  substring (len s - k)%nat k s.

(** [not s] for a string. *)
Definition is_empty (s : string) : bool :=
  match s with
  | EmptyString => true
  | _ => false
  end.

(** [s.replace(old, new)] for a non-empty [old]: the occurrences of [old]
    are replaced from left to right, without overlap.  [skip] counts the
    characters of an occurrence still to be passed over. *)
Fixpoint replace_aux (old new : string) (skip : nat) (s : string) : string :=
  match s with
  | EmptyString => EmptyString
  | String c s' =>
      match skip with
      | S k => replace_aux old new k s'
      | O =>
          if String.prefix old s
          then new +:+ replace_aux old new (len old - 1)%nat s'
          else String c (replace_aux old new 0 s')
      end
  end.

Definition replace (old new s : string) : string := replace_aux old new 0 s.

(** [max(a, b)] and [min(a, b)] on numbers: the first argument is
    returned unless the second is strictly greater, respectively
    smaller. *)
Definition max (a b : Qc) : Qc := if Qclt_le_dec a b then b else a.

Definition min (a b : Qc) : Qc := if Qclt_le_dec b a then b else a.

(** [l[:n]] on a list: the first [n] items, or all but the last [-n]
    when [n] is negative. *)
Definition list_slice_to {A : Type} (n : Z) (l : list A) : list A :=
  if (0 <=? n)%Z then take (Z.to_nat n) l
  else take (List.length l - Z.to_nat (- n)) l.

(** [int(x)]: truncation towards zero. *)
Definition int (x : Qc) : Z := Z.quot (Qnum x) (Zpos (Qden x)).

End Py.

(** ** postcode_dataset.py: class UKPostcodeDataset *)

Module UKPostcodeDataset.

(** [self.postcode_dict] *)
Abbreviation postcode_dict := (gmap string coord).

(** [d[k]]: raises [KeyError] on a missing key. *)
Definition getitem (d : postcode_dict) (k : string) : result coord :=
  match d !! k with
  | Some c => Ok c
  | None => Raise KeyError
  end.

(** [k in d] *)
Definition contains (d : postcode_dict) (k : string) : bool :=
  bool_decide (is_Some (d !! k)).

(** [clean_postcode = postcode.strip().upper().replace(' ', '')] *)
Definition clean (postcode : string) : string :=
  Py.remove_spaces (Py.upper (Py.strip postcode)).

(** The list [variants] of get_coordinates. *)
Definition variants (clean_postcode : string) : list string :=
  [ Py.slice_to_neg 3 clean_postcode +:+ " " +:+ Py.slice_from_neg 3 clean_postcode;
    Py.slice_to_neg 2 clean_postcode +:+ " " +:+ Py.slice_from_neg 2 clean_postcode ].

(** The loop [for variant in variants: if variant in d: return d[variant]];
    [Ok None] when the loop falls through. *)
Fixpoint try_variants (d : postcode_dict) (vs : list string)
  : result (option coord) :=
  match vs with
  | [] => Ok None
  | v :: vs' =>
      if contains d v then c ←! getitem d v ;; Ok (Some c)
      else try_variants d vs'
  end.

(** The body of get_coordinates once [postcode] is known to be a
    non-empty string. *)
Definition get_coordinates_str (d : postcode_dict) (postcode : string)
  : result (option coord) :=
  let clean_postcode := clean postcode in
  if contains d clean_postcode then
    c ←! getitem d clean_postcode ;; Ok (Some c)
  else if (5 <=? Py.len clean_postcode)%nat then
    try_variants d (variants clean_postcode)
  else Ok None.

(** [get_coordinates(self, postcode)].  [not postcode] holds for [None],
    the empty string and the number zero; NaN and the other numbers are
    truthy and have no [strip] method. *)
Definition get_coordinates (d : postcode_dict) (postcode : pyval)
  : result (option coord) :=
  match postcode with
  | PyNone => Ok None
  | PyStr s => if Py.is_empty s then Ok None else get_coordinates_str d s
  | PyNaN => Raise AttributeError
  | PyNum q => if bool_decide (q = 0%Qc) then Ok None else Raise AttributeError
  end.

(** *** Loading the mapping (load_postcode_data) *)

(** A cell of the column Latitude or Longitude, by what the loop of the
    loader does with it.  [pd.notna] is false on [Absent] alone.  [float]
    returns [q] on [Float q], which stands for a number and for a text
    that [float] can parse, and raises ValueError on [NotFloat], a text
    such as 'north' that it cannot parse. *)
Inductive coord_cell : Type :=
  | Absent
  | Float (q : Qc)
  | NotFloat.

(** One row of postcodes.csv, restricted to the three columns the loader
    reads. *)
Record csv_row : Type := {
  Postcode : pyval;
  Latitude : coord_cell;
  Longitude : coord_cell
}.

(** What [pd.read_csv(csv_path)] yields. *)
Record csv_file : Type := {
  has_expected_cols : bool;
  csv_rows : list csv_row
}.

(** The outside world as load_postcode_data observes it.  A [None]
    stands for a call that raises. *)
Record environment : Type := {
  cache_exists : bool;
  cache_contents : option postcode_dict;
  csv_exists : bool;
  download_doogal_postcode_data : bool;
  read_csv : option csv_file;
  cache_writable : bool
}.

(** The loop that fills [self.postcode_dict] from the rows.  The
    boolean is [false] when the body raises, on [row['Postcode'].strip()]
    for a Postcode cell that is not a string, or on [float(lat)] or
    [float(lon)] for a row where both cells are present and one cannot be
    converted; the dictionary then keeps the entries made so far. *)
Fixpoint fill_dict (rows : list csv_row) (d : postcode_dict)
  : postcode_dict * bool :=
  match rows with
  | [] => (d, true)
  | row :: rows' =>
      match Postcode row with
      | PyStr s =>
          let postcode := Py.upper (Py.strip s) in
          match Latitude row, Longitude row with
          | Absent, _ | _, Absent => fill_dict rows' d
          | Float lat, Float lon => fill_dict rows' (<[postcode := (lat, lon)]> d)
          | _, _ => (d, false)
          end
      | _ => (d, false)
      end
  end.

(** The part of load_postcode_data after the cache has been tried. *)
Definition load_from_csv (env : environment) (force_download : bool)
    (d : postcode_dict) : postcode_dict * bool :=
  if (negb (csv_exists env) || force_download)
     && negb (download_doogal_postcode_data env)
  then (d, false)
  else
    match read_csv env with
    | None => (d, false)
    | Some f =>
        if has_expected_cols f then
          let '(d', completed) := fill_dict (csv_rows f) ∅ in
          if completed then (d', cache_writable env) else (d', false)
        else (d, false)
    end.

(** [load_postcode_data(self, force_download)]: the new value of
    [self.postcode_dict] and the boolean returned. *)
Definition load_postcode_data (env : environment) (force_download : bool)
    (d : postcode_dict) : postcode_dict * bool :=
  if cache_exists env && negb force_download then
    match cache_contents env with
    | Some cached => (cached, true)
    | None => load_from_csv env force_download d
    end
  else load_from_csv env force_download d.

(** *** Dataframes and geocode_dataframe *)

(** A pandas dataframe: [nrows] rows and an ordered list of named
    columns, each holding [nrows] cells. *)
Record DataFrame : Type := {
  nrows : nat;
  columns : list (string * list pyval)
}.

(** [df[name]]: raises [KeyError] when there is no such column. *)
Fixpoint column (cols : list (string * list pyval)) (name : string)
  : result (list pyval) :=
  match cols with
  | [] => Raise KeyError
  | (n, vals) :: cols' =>
      if bool_decide (n = name) then Ok vals else column cols' name
  end.

(** [df[name] = vals]: an existing column is replaced where it stands,
    a new one is appended after the others. *)
Fixpoint set_column (cols : list (string * list pyval)) (name : string)
    (vals : list pyval) : list (string * list pyval) :=
  match cols with
  | [] => [(name, vals)]
  | (n, old) :: cols' =>
      if bool_decide (n = name) then (n, vals) :: cols'
      else (n, old) :: set_column cols' name vals
  end.

Definition setitem (df : DataFrame) (name : string) (vals : list pyval)
  : DataFrame :=
  {| nrows := nrows df; columns := set_column (columns df) name vals |}.

Definition is_float (v : pyval) : bool :=
  match v with
  | PyNum _ => true
  | _ => false
  end.

(** The cells pandas stores for a list of floats and [None]s assigned
    as a column: as soon as one entry is a float the column is a float64
    column, in which every [None] is stored as NaN; a list without any
    float is kept as it is, in an object column. *)
Definition as_column (vals : list pyval) : list pyval :=
  if existsb is_float vals
  then (λ v, match v with PyNone => PyNaN | _ => v end) <$> vals
  else vals.

(** One turn of the loop of geocode_dataframe: the pair appended to
    [coords_list]. *)
Definition coords_entry (d : postcode_dict) (postcode : pyval)
  : result (pyval * pyval) :=
  coords ←! get_coordinates d postcode ;;
  match coords with
  | Some (lat, lon) => Ok (PyNum lat, PyNum lon)
  | None => Ok (PyNone, PyNone)
  end.

(** [geocode_dataframe(self, df, postcode_column)].  The dataframe is
    modified in place and returned: the first component is the state
    of the object [df] when the call ends, the second tells whether the
    call returned it ([Ok tt]) or raised.  The two lists assigned to
    [df['lat']] and [df['lon']] are stored as pandas stores them
    ([as_column]).  The closing progress message divides by [len(df)]. *)
Definition geocode_dataframe (d : postcode_dict) (df : DataFrame)
    (postcode_column : string) : DataFrame * result unit :=
  if bool_decide (d = ∅) then (df, Ok tt)
  else
    match column (columns df) postcode_column with
    | Raise e => (df, Raise e)
    | Ok postcodes =>
        match mapM (coords_entry d) postcodes with
        | Raise e => (df, Raise e)
        | Ok coords_list =>
            let df1 := setitem df "lat" (as_column (fst <$> coords_list)) in
            let df2 := setitem df1 "lon" (as_column (snd <$> coords_list)) in
            if bool_decide (nrows df = 0%nat) then (df2, Raise ZeroDivisionError)
            else (df2, Ok tt)
        end
    end.

End UKPostcodeDataset.

(** ** Regular expressions of the shape used by extract_postcode_district *)

Module Re.

(** One item [cls{lo,hi}]: between [lo] and [hi] characters of the
    class [cls], as many as possible first. *)
Record item : Type := {
  cls : ascii → bool;
  lo : nat;
  hi : nat
}.

(** The number of leading characters of [s] that are in [p]. *)
Fixpoint count_prefix (p : ascii → bool) (s : string) : nat :=
  match s with
  | EmptyString => 0
  | String c s' => if p c then S (count_prefix p s') else 0
  end.

Fixpoint drop (n : nat) (s : string) : string :=
  match n, s with
  | O, _ => s
  | S _, EmptyString => EmptyString
  | S n', String _ s' => drop n' s'
  end.

Fixpoint take (n : nat) (s : string) : string :=
  match n, s with
  | O, _ => EmptyString
  | S _, EmptyString => EmptyString
  | S n', String c s' => String c (take n' s')
  end.

(** The greedy repetition loop: with [k] repetitions consumed, the
    rest of the pattern is tried by [cont k]; when it fails, one
    repetition is given back, down to [lo]. *)
Fixpoint greedy (lo : nat) (cont : nat → option nat) (k : nat) : option nat :=
  if (lo <=? k)%nat then
    match cont k with
    | Some n => Some (k + n)%nat
    | None =>
        match k with
        | O => None
        | S k' => greedy lo cont k'
        end
    end
  else None.

(** Backtracking match of a sequence of items at the start of [s]: the
    length of the match found.  For each item the greatest repetition
    count is tried first. *)
Fixpoint match_here (items : list item) (s : string) : option nat :=
  match items with
  | [] => Some 0%nat
  | it :: rest =>
      greedy (lo it) (λ k, match_here rest (drop k s))
        (Nat.min (hi it) (count_prefix (cls it) s))
  end.

(** [re.match(pattern, s)] followed by [.group(1)], for a pattern that
    is one group anchored at the start. *)
Definition match_group (items : list item) (s : string) : option string :=
  n ← match_here items s; Some (take n s).

End Re.

(** ** dash_app.py and heatmap_generator.py

    UKHousePriceDashboard and UKHousePriceHeatMap hold the same
    [__init__], [get_coordinates], coordinate step of [load_data],
    [extract_postcode_district] and district aggregation; one model
    serves both. *)

Module Dashboard.

Import UKPostcodeDataset.

(** The literal [(51.5074, -0.1278)]. *)
Definition fallback : coord :=
  (Q2Qc (515074 # 10000), Q2Qc (- 1278 # 10000)).

(** [self.postcode_geocoder]: the dataset's mapping, or [None]. *)
Record dashboard : Type := {
  postcode_geocoder : option postcode_dict
}.

(** [__init__]: a fresh dataset (empty mapping) is loaded; when the
    load reports failure the geocoder is set to [None]. *)
Definition init (env : environment) : dashboard :=
  let '(d, loaded) := load_postcode_data env false ∅ in
  if loaded then {| postcode_geocoder := Some d |}
  else {| postcode_geocoder := None |}.

(** [get_coordinates(self, postcode)] *)
Definition get_coordinates (self : dashboard) (postcode : pyval)
  : result (option coord) :=
  match postcode_geocoder self with
  | Some d => UKPostcodeDataset.get_coordinates d postcode
  | None => Ok (Some fallback)
  end.

(** *** load_data: attaching coordinates *)

(** A record of the price frame.  The postcode cell is whatever the
    file held there: a string as a rule, a number when the whole column
    read as numeric. *)
Record PriceRecord : Type := {
  postcode : pyval;
  priceper : Qc;
  area : string
}.

Record GeoRecord : Type := {
  price_record : PriceRecord;
  lat : Qc;
  lon : Qc
}.

(** One turn of the loop over [df['postcode']]: the pair appended to
    [coords_list]. *)
Definition coords_entry (self : dashboard) (p : pyval)
  : result (option Qc * option Qc) :=
  coords ←! get_coordinates self p ;;
  match coords with
  | Some c =>
      if bool_decide (c ≠ fallback) then Ok (Some c.1, Some c.2)
      else Ok (None, None)
  | None => Ok (None, None)
  end.

(** [df.dropna(subset=['lat', 'lon'])] on one row carrying its index
    label. *)
Definition dropna_row (row : nat * PriceRecord * (option Qc * option Qc))
  : option (nat * GeoRecord) :=
  let '(i, r, (la, lo)) := row in
  match la, lo with
  | Some x, Some y => Some (i, {| price_record := r; lat := x; lon := y |})
  | _, _ => None
  end.

(** The [coords_list] of load_data. *)
Definition coords_list (self : dashboard) (df : list PriceRecord)
  : result (list (option Qc * option Qc)) :=
  mapM (coords_entry self) (postcode <$> df).

(** The second half of load_data, from the concatenated frame [df]
    (index labels [0 .. len(df) - 1]) to the frame returned: the rows
    kept, each with the index label it had in [df].  The loop over the
    postcodes stands outside any [try]: an exception of get_coordinates
    leaves load_data. *)
Definition load_data (self : dashboard) (df : list PriceRecord)
  : result (list (nat * GeoRecord)) :=
  cs ←! coords_list self df ;;
  Ok (omap dropna_row (zip (zip (seq 0 (List.length df)) df) cs)).

(** *** extract_postcode_district *)

(** The pattern [^([A-Z]{1,2}\d{1,2}[A-Z]?)]. *)
Definition district_pattern : list Re.item :=
  [ {| Re.cls := Py.is_upper; Re.lo := 1; Re.hi := 2 |};
    {| Re.cls := Py.is_digit; Re.lo := 1; Re.hi := 2 |};
    {| Re.cls := Py.is_upper; Re.lo := 0; Re.hi := 1 |} ].

(** [extract_postcode_district(postcode)].  [pd.isna(postcode) or not
    postcode] holds for [None], NaN, the empty string and zero.  The
    text of any other number begins with a sign, a digit or one of the
    words inf and nan, none of which the pattern matches. *)
Definition extract_postcode_district (postcode : pyval) : option string :=
  match postcode with
  | PyNone | PyNaN | PyNum _ => None
  | PyStr s =>
      if Py.is_empty s then None
      else
        match Py.split (Py.upper (Py.strip s)) with
        | district :: _ => Re.match_group district_pattern district
        | [] => None
        end
  end.

(** *** District aggregation

    [df.groupby('postcode_district').agg({'priceper': ['mean', 'count'],
    'lat': 'mean', 'lon': 'mean', 'area': 'first'}).reset_index()]
    followed by the filter on [property_count]. *)

Record DistrictAggregate : Type := {
  postcode_district : string;
  avg_price : Qc;
  property_count : nat;
  agg_lat : Qc;
  agg_lon : Qc;
  agg_area : string
}.

(** The key column: [df['postcode'].apply(extract_postcode_district)]. *)
Definition district_of (r : GeoRecord) : option string :=
  extract_postcode_district (postcode (price_record r)).

(** Adds row [r] to the group of key [k].  Groups are kept in
    increasing order of their keys, the rows of a group in the order of
    the frame. *)
Fixpoint insert_group (k : string) (r : GeoRecord)
    (groups : list (string * list GeoRecord)) : list (string * list GeoRecord) :=
  match groups with
  | [] => [(k, [r])]
  | (k', members) :: groups' =>
      match String.compare k k' with
      | Eq => (k', members ++ [r]) :: groups'
      | Lt => (k, [r]) :: groups
      | Gt => (k', members) :: insert_group k r groups'
      end
  end.

(** [df.groupby('postcode_district')]: rows without a key belong to no
    group. *)
Definition groupby (df : list GeoRecord) : list (string * list GeoRecord) :=
  foldl (λ groups r,
           match district_of r with
           | Some k => insert_group k r groups
           | None => groups
           end) [] df.

Definition Qc_of_nat (n : nat) : Qc := Qc_of_Z (Z.of_nat n).

Definition sum (xs : list Qc) : Qc := foldr Qcplus 0%Qc xs.

(** The ['mean'] aggregate; an empty group has none.  The mean is taken
    in exact arithmetic: pandas computes it in double precision, so the
    value it returns is this one up to rounding.  The statements below
    rely on the mean only through the bounds that a rounded mean keeps,
    never through its exact value. *)
Definition mean (xs : list Qc) : option Qc :=
  match xs with
  | [] => None
  | _ => Some (sum xs / Qc_of_nat (List.length xs))%Qc
  end.

(** The ['count'] aggregate. *)
Definition count (xs : list Qc) : nat := List.length xs.

(** The ['first'] aggregate. *)
Definition first (xs : list string) : option string := head xs.

(** The row of the aggregated frame for one group, with the columns
    renamed to postcode_district, avg_price, property_count, lat, lon
    and area. *)
Definition agg (group : string * list GeoRecord) : option DistrictAggregate :=
  let '(k, members) := group in
  let prices := (λ r, priceper (price_record r)) <$> members in
  p ← mean prices;
  la ← mean (lat <$> members);
  lo ← mean (lon <$> members);
  a ← first ((λ r, area (price_record r)) <$> members);
  Some {| postcode_district := k;
          avg_price := p;
          property_count := count prices;
          agg_lat := la;
          agg_lon := lo;
          agg_area := a |}.

(** [district_df] after [district_df[district_df['property_count'] >= 3]]. *)
Definition district_df (df : list GeoRecord) : list DistrictAggregate :=
  filter (λ d, 3 ≤ property_count d)%nat (omap agg (groupby df)).

(** The rows of [df] whose district is [k], in the order of [df]. *)
Definition members_of (k : string) (df : list GeoRecord) : list GeoRecord :=
  filter (λ r, district_of r = Some k) df.

End Dashboard.

(** ** The specification's wording, and the predicates of the statements *)

Module Claimed.

Import UKPostcodeDataset Dashboard.

(** [s] with a space put [k] characters before its end. *)
Definition space_from_end (k : nat) (s : string) : string :=
  Re.take (Py.len s - k) s +:+ " " +:+ Re.drop (Py.len s - k) s.

(** The lookup steps as the specification lists them: normalize, exact
    match, space 3 from the end, space 2 from the end, not found. *)
Definition lookup_steps (d : postcode_dict) (postcode : string) : option coord :=
  let n := clean postcode in
  match d !! n with
  | Some c => Some c
  | None =>
      match d !! space_from_end 3 n with
      | Some c => Some c
      | None => d !! space_from_end 2 n
      end
  end.

(** The same steps behind the two guards of the code: an empty input
    is not looked up, and the spaced variants are tried only for a
    normalized form of at least 5 characters. *)
Definition guarded_lookup_steps (d : postcode_dict) (postcode : string)
  : option coord :=
  if Py.is_empty postcode then None
  else
    let n := clean postcode in
    match d !! n with
    | Some c => Some c
    | None =>
        if (5 <=? Py.len n)%nat then
          match d !! space_from_end 3 n with
          | Some c => Some c
          | None => d !! space_from_end 2 n
          end
        else None
    end.

(** The spacing formats of a normalized postcode [n], in the order the
    lookup tries them. *)
Definition formats (n : string) : list string :=
  [n; space_from_end 3 n; space_from_end 2 n].

(** The first whitespace-delimited word of [s], if any. *)
Fixpoint first_word (s : string) : option string :=
  match s with
  | EmptyString => None
  | String c s' =>
      if Py.isspace c then first_word s'
      else Some (Re.take (Re.count_prefix (λ a, negb (Py.isspace a)) s) s)
  end.

(** The district as the specification words it: the leading letters
    followed by the first group of digits. *)
Definition letters_then_digits (word : string) : option string :=
  let nl := Re.count_prefix Py.is_upper word in
  let nd := Re.count_prefix Py.is_digit (Re.drop nl word) in
  if (1 <=? nl)%nat && (1 <=? nd)%nat then Some (Re.take (nl + nd) word)
  else None.

Definition claimed_district (postcode : string) : option string :=
  word ← first_word (Py.upper (Py.strip postcode)); letters_then_digits word.

(** The district the pattern selects, without backtracking: one or two
    leading letters, then the first one or two digits, then the next
    character when it is a letter. *)
Definition outward_prefix (word : string) : option string :=
  let nl := Re.count_prefix Py.is_upper word in
  let nd := Re.count_prefix Py.is_digit (Re.drop nl word) in
  if (1 <=? nl)%nat && (nl <=? 2)%nat && (1 <=? nd)%nat then
    let nd' := Nat.min 2 nd in
    let no := Nat.min 1 (Re.count_prefix Py.is_upper (Re.drop (nl + nd') word)) in
    Some (Re.take (nl + nd' + no) word)
  else None.

(** The inputs of get_coordinates the specification calls absent:
    [None], the empty string, and a string none of whose spacing
    formats is a key of the mapping. *)
Inductive absent_input (d : postcode_dict) : pyval → Prop :=
  | absent_none : absent_input d PyNone
  | absent_empty : absent_input d (PyStr "")
  | absent_str (s : string) :
      Forall (λ k, d !! k = None) (formats (clean s)) →
      absent_input d (PyStr s).

(** A cell that holds a string or [None]. *)
Definition str_or_none (v : pyval) : Prop :=
  match v with
  | PyNone | PyStr _ => True
  | PyNaN | PyNum _ => False
  end.

(** A postcode cell on which get_coordinates raises: the cell is truthy
    and has no [strip] method, which is the case of NaN and of the
    numbers other than zero. *)
Definition truthy_non_string (v : pyval) : Prop :=
  match v with
  | PyNaN => True
  | PyNum q => q ≠ 0%Qc
  | PyNone | PyStr _ => False
  end.

(** The pair of cells a postcode cell is given: its looked-up
    coordinate, or [(None, None)]. *)
Definition looked_up (d : postcode_dict) (v : pyval) : pyval * pyval :=
  match UKPostcodeDataset.get_coordinates d v with
  | Ok (Some (lat, lon)) => (PyNum lat, PyNum lon)
  | _ => (PyNone, PyNone)
  end.

(** The coordinate the lookup finds for a postcode cell, if any. *)
Definition found (d : postcode_dict) (v : pyval) : option coord :=
  match UKPostcodeDataset.get_coordinates d v with
  | Ok (Some c) => Some c
  | _ => None
  end.

(** The missing value of the columns lat and lon: NaN when the postcode
    of at least one row is found, [None] when none is. *)
Definition missing_value (d : postcode_dict) (postcodes : list pyval) : pyval :=
  if existsb (λ v, bool_decide (is_Some (found d v))) postcodes
  then PyNaN else PyNone.

(** The cells of lat and lon for a postcode cell [v] of a frame whose
    postcode column is [postcodes]. *)
Definition lat_cell (d : postcode_dict) (postcodes : list pyval) (v : pyval)
  : pyval :=
  match found d v with
  | Some c => PyNum c.1
  | None => missing_value d postcodes
  end.

Definition lon_cell (d : postcode_dict) (postcodes : list pyval) (v : pyval)
  : pyval :=
  match found d v with
  | Some c => PyNum c.2
  | None => missing_value d postcodes
  end.

(** The columns other than lat and lon, in their order. *)
Definition other_columns (cols : list (string * list pyval))
  : list (string * list pyval) :=
  filter (λ col, col.1 ≠ "lat" ∧ col.1 ≠ "lon") cols.

(** Groups in strictly increasing order of their keys. *)
Definition key_lt (a b : string) : Prop := String.compare a b = Lt.

Definition keys_above (k : string) (groups : list (string * list GeoRecord))
  : Prop :=
  Forall (λ g, key_lt k g.1) groups.

Fixpoint sorted_groups (groups : list (string * list GeoRecord)) : Prop :=
  match groups with
  | [] => True
  | (k, _) :: groups' => keys_above k groups' ∧ sorted_groups groups'
  end.

(** The rows of the group of key [k], if there is one. *)
Fixpoint lookup_group (k : string) (groups : list (string * list GeoRecord))
  : option (list GeoRecord) :=
  match groups with
  | [] => None
  | (k', members) :: groups' =>
      if decide (k' = k) then Some members else lookup_group k groups'
  end.

(** A list of rows as a group: no rows, no group. *)
Definition as_group (rows : list GeoRecord) : option (list GeoRecord) :=
  match rows with
  | [] => None
  | _ => Some rows
  end.

(** A frame of five records: three in district N2, two in SW1A. *)
Definition record (p : string) (price : Z) (a : string) (la lo : Z) : GeoRecord :=
  {| price_record := {| postcode := PyStr p; priceper := Qc_of_Z price;
                        area := a |};
     lat := Qc_of_Z la; lon := Qc_of_Z lo |}.

Definition five_records : list GeoRecord :=
  [ record "N2 9QL" 3000 "Barnet" 51 0;
    record "SW1A 1AA" 9000 "Westminster" 52 1;
    record "n2 0aa" 4000 "Haringey" 53 2;
    record "SW1A 2AA" 7000 "Westminster" 52 1;
    record "N2 8BB" 5000 "Barnet" 55 4 ].

End Claimed.

(** ** The rest of the pipeline: reading the price files, filtering for
    the dashboard, marker sizes and heat-map points *)

Module Pipeline.

Import UKPostcodeDataset Dashboard.

(** *** load_data: reading and cleaning the price files *)

(** A pandas timestamp: nanoseconds since 1970-01-01. *)
Definition Timestamp : Type := Z.

(** [pd.Timestamp('2024-01-01')] *)
Definition cutoff_date : Timestamp := 1704067200000000000%Z.

(** One row of a price file, restricted to the columns load_data reads.
    [None] is a missing value; [raw_date] is the cell of dateoftransfer
    after [pd.to_datetime(errors='coerce')], [None] being NaT.  The
    postcode cell is kept as it was read. *)
Record RawRow : Type := {
  raw_priceper : option Qc;
  raw_postcode : pyval;
  raw_year : option Z;
  raw_date : option Timestamp
}.

(** [pd.isna] on a cell. *)
Definition isna (v : pyval) : bool :=
  match v with
  | PyNone | PyNaN => true
  | PyStr _ | PyNum _ => false
  end.

(** Which of the columns year and dateoftransfer a file has; year is
    looked for first. *)
Inductive recency_column : Type :=
  | HasYear
  | HasDateOfTransfer
  | HasNeither.

(** A price file: the basename of its path and what reading it gives.
    [file_rows] is [None] when the body of the [try] raises on the file
    ([pd.read_csv] fails, a column priceper or postcode is missing, a
    column cannot be compared), so that the [except] clause skips it. *)
Record CsvFile : Type := {
  basename : string;
  file_rows : option (list RawRow);
  recency : recency_column
}.

(** [basename.replace('_link_26122024.csv', '').replace('_', ' ')] *)
Definition area_name (basename : string) : string :=
  Py.replace "_" " " (Py.replace "_link_26122024.csv" "" basename).

(** A comparison with a missing value is false. *)
Definition recent (kind : recency_column) (row : RawRow) : bool :=
  match kind with
  | HasYear =>
      match raw_year row with
      | Some y => bool_decide (2024 ≤ y)%Z
      | None => false
      end
  | HasDateOfTransfer =>
      match raw_date row with
      | Some t => bool_decide (cutoff_date ≤ t)%Z
      | None => false
      end
  | HasNeither => true
  end.

(** The cleaning of one row: [dropna(subset=['priceper', 'postcode'])],
    [priceper > 0], [priceper < 50000], the recency filter, and the area
    column. *)
Definition clean_row (kind : recency_column) (area_label : string) (row : RawRow)
  : option PriceRecord :=
  match raw_priceper row with
  | Some price =>
      if negb (isna (raw_postcode row))
         && bool_decide (0 < price)%Qc && bool_decide (price < Qc_of_Z 50000)%Qc
         && recent kind row
      then Some {| postcode := raw_postcode row; priceper := price;
                   area := area_label |}
      else None
  | None => None
  end.

(** The body of the loop over the files: the cleaned frame, or [None]
    when the file is skipped by the [except] clause.  [pd.read_csv]
    raises ValueError on a negative [nrows]. *)
Definition clean_file (max_rows_per_file : Z) (f : CsvFile)
  : option (list PriceRecord) :=
  if (max_rows_per_file <? 0)%Z then None
  else
    rows ← file_rows f;
    Some (omap (clean_row (recency f) (area_name (basename f)))
               (take (Z.to_nat max_rows_per_file) rows)).

(** [all_data]: the cleaned frames of the files of
    [csv_files[:max_files]] that could be read. *)
Definition all_data (max_files max_rows_per_file : Z) (csv_files : list CsvFile)
  : list (list PriceRecord) :=
  omap (clean_file max_rows_per_file) (Py.list_slice_to max_files csv_files).

(** [load_data(self, max_files, max_rows_per_file)] on the files that
    [glob] lists. *)
Definition load_data_files (self : dashboard) (max_files max_rows_per_file : Z)
    (csv_files : list CsvFile) : result (list (nat * GeoRecord)) :=
  match all_data max_files max_rows_per_file csv_files with
  | [] => Ok []
  | frames => load_data self (concat frames)
  end.

(** *** update_dashboard: the filters and the summary *)

(** [filtered_df]: the price range of the slider, then the area of the
    dropdown unless it is 'all'. *)
Definition filter_df (price_range : Qc * Qc) (selected_area : string)
    (df : list GeoRecord) : list GeoRecord :=
  let in_range :=
    filter (λ r, (price_range.1 ≤ priceper (price_record r))%Qc
                 ∧ (priceper (price_record r) ≤ price_range.2)%Qc) df in
  if bool_decide (selected_area ≠ "all")
  then filter (λ r, area (price_record r) = selected_area) in_range
  else in_range.

(** The marker size of a district on the dashboard map:
    [min(max(x/2 + 8, 8), 20)]. *)
Definition marker_size (property_count : nat) : Qc :=
  Py.min (Py.max (Qc_of_nat property_count / Qc_of_Z 2 + Qc_of_Z 8) (Qc_of_Z 8))
         (Qc_of_Z 20).

(** What update_dashboard computes from the data: [None] stands for the
    empty figures returned when no record passes the filters; otherwise
    the district frame, the marker sizes, and the counts
    [total_properties] and [districts_shown] of the summary. *)
Record dashboard_view : Type := {
  view_districts : list DistrictAggregate;
  view_sizes : list Qc;
  total_properties : nat;
  districts_shown : nat
}.

Definition update_dashboard (price_range : Qc * Qc) (selected_area : string)
    (df : list GeoRecord) : option dashboard_view :=
  let filtered_df := filter_df price_range selected_area df in
  match filtered_df with
  | [] => None
  | _ =>
      let districts := district_df filtered_df in
      Some {| view_districts := districts;
              view_sizes := (λ d, marker_size (property_count d)) <$> districts;
              total_properties := List.length filtered_df;
              districts_shown := List.length districts |}
  end.

(** *** prepare_heatmap_data and the markers of create_heatmap *)

(** One entry [[lat, lon, avg_price]] of [heatmap_data]. *)
Definition heat_point : Type := Qc * Qc * Qc.

(** [max(1, int(min(property_count / 5, 3)))]: how many times a district
    is entered. *)
Definition repetitions (property_count : nat) : nat :=
  Nat.max 1 (Z.to_nat (Py.int (Py.min (Qc_of_nat property_count / Qc_of_Z 5)
                                      (Qc_of_Z 3)))).

(** [prepare_heatmap_data(self, df)]: the heat-map points and the
    district frame.  The means of a group of located records are never
    missing, so the [pd.notna] test always passes. *)
Definition prepare_heatmap_data (df : list GeoRecord)
  : list heat_point * list DistrictAggregate :=
  match df with
  | [] => ([], [])
  | _ =>
      let districts := district_df df in
      (d ← districts;
       replicate (repetitions (property_count d))
                 (agg_lat d, agg_lon d, avg_price d),
       districts)
  end.

(** The radius of a district marker in create_heatmap:
    [min(max(property_count / 2 + 5, 5), 15)]. *)
Definition marker_radius (property_count : nat) : Qc :=
  Py.min (Py.max (Qc_of_nat property_count / Qc_of_Z 2 + Qc_of_Z 5) (Qc_of_Z 5))
         (Qc_of_Z 15).

End Pipeline.

(** ** Predicates of the further statements *)

Module Stated.

Import UKPostcodeDataset Dashboard Claimed Pipeline.

(** A row of postcodes.csv whose Postcode cell is a string. *)
Definition str_postcode (row : csv_row) : Prop :=
  match Postcode row with
  | PyStr _ => True
  | _ => False
  end.

(** A row on which the body of the loader's loop does not raise: the
    Postcode cell is a string and, when both coordinate cells are
    present, both can be converted to a float. *)
Definition row_loads (row : csv_row) : Prop :=
  str_postcode row
  ∧ match Latitude row, Longitude row with
    | Absent, _ | _, Absent => True
    | Float _, Float _ => True
    | _, _ => False
    end.

(** The entry a row of postcodes.csv stands for: its stripped, uppercased
    postcode and its coordinates, when the postcode is a string and both
    coordinates are numbers. *)
Definition row_entry (row : csv_row) : option (string * coord) :=
  match Postcode row, Latitude row, Longitude row with
  | PyStr s, Float la, Float lo => Some (Py.upper (Py.strip s), (la, lo))
  | _, _, _ => None
  end.

(** The coordinates of the last row that stands for key [k]. *)
Fixpoint last_entry (k : string) (rows : list csv_row) : option coord :=
  match rows with
  | [] => None
  | row :: rows' =>
      match last_entry k rows' with
      | Some c => Some c
      | None =>
          match row_entry row with
          | Some (k', c) => if decide (k' = k) then Some c else None
          | None => None
          end
      end
  end.

(** A row of a price file that the cleaning of load_data keeps, with its
    price [p]: the price and the postcode are not missing, the price lies
    strictly between 0 and 50000, and the row is recent by the column
    the file has (year at least 2024, or else date of transfer from
    2024-01-01 on). *)
Definition kept_row (kind : recency_column) (row : RawRow) (p : Qc) : Prop :=
  raw_priceper row = Some p
  ∧ raw_postcode row ≠ PyNone ∧ raw_postcode row ≠ PyNaN
  ∧ (0 < p)%Qc ∧ (p < Qc_of_Z 50000)%Qc
  ∧ match kind with
    | HasYear => ∃ y, raw_year row = Some y ∧ (2024 ≤ y)%Z
    | HasDateOfTransfer => ∃ t, raw_date row = Some t ∧ (cutoff_date ≤ t)%Z
    | HasNeither => True
    end.

(** The rows load_data reads: row [row] is among the first
    [max_rows_per_file] rows of a file [f] of [csv_files[:max_files]]
    that could be read. *)
Definition row_read (max_files max_rows_per_file : Z) (csv_files : list CsvFile)
    (f : CsvFile) (row : RawRow) : Prop :=
  (0 ≤ max_rows_per_file)%Z
  ∧ f ∈ Py.list_slice_to max_files csv_files
  ∧ ∃ rows, file_rows f = Some rows
            ∧ row ∈ take (Z.to_nat max_rows_per_file) rows.

(** Every character of [s] is in the class [p]. *)
Fixpoint all_chars (p : ascii → bool) (s : string) : bool :=
  match s with
  | EmptyString => true
  | String c s' => p c && all_chars p s'
  end.

(** How many heat-map points a district of [c] properties is given. *)
Definition points_per_district (c : nat) : nat :=
  if (c <? 10)%nat then 1 else if (c <? 15)%nat then 2 else 3.

(** A frame with three records of district N2 in the area Barnet. *)
Definition six_records : list GeoRecord :=
  five_records ++ [record "N2 1AA" 6000 "Barnet" 51 0].

End Stated.

Import UKPostcodeDataset Dashboard Claimed Pipeline Stated.

(** * Properties *)

(** ** Slices and strings *)

Lemma substring_0_take (n : nat) (s : string) : substring 0 n s = Re.take n s.
Proof.
  revert n. induction s as [|c s IH]; intros [|n]; simpl; try reflexivity.
  by rewrite IH.
Qed.

Lemma substring_drop (m k : nat) (s : string) :
  (Py.len s ≤ m + k)%nat → substring m k s = Re.drop m s.
Proof.
  revert m k. induction s as [|c s IH]; intros m k Hlen.
  - by destruct m, k.
  - destruct m as [|m]; simpl in *.
    + destruct k as [|k]; [lia|]. simpl. f_equal.
      rewrite substring_0_take.
      clear IH. revert k Hlen. induction s as [|c' s IH']; intros k Hk.
      * by destruct k.
      * destruct k as [|k]; simpl in *; [lia|]. f_equal. apply IH'. lia.
    + apply IH. lia.
Qed.

(** The two variants of the code are the two spaced formats, for a
    string of any length: a negative slice bound past the start of the
    string stops at the start. *)
Lemma variants_formats (n : string) :
  variants n = [space_from_end 3 n; space_from_end 2 n].
Proof.
  unfold variants, space_from_end, Py.slice_to_neg, Py.slice_from_neg.
  rewrite !substring_0_take, !substring_drop by lia. reflexivity.
Qed.

(** ** get_coordinates *)

Lemma contains_true (d : postcode_dict) (k : string) (c : coord) :
  d !! k = Some c → contains d k = true ∧ getitem d k = Ok c.
Proof.
  intros Hk. unfold contains, getitem. rewrite Hk. split; [|done].
  apply bool_decide_eq_true. eauto.
Qed.

Lemma contains_false (d : postcode_dict) (k : string) :
  d !! k = None → contains d k = false.
Proof.
  intros Hk. unfold contains. rewrite Hk.
  apply bool_decide_eq_false. by intros [? ?].
Qed.

(** The loop over the two variants returns the value of the first one
    that is a key, and never raises. *)
Lemma try_variants_two (d : postcode_dict) (v1 v2 : string) :
  try_variants d [v1; v2]
  = Ok (match d !! v1 with Some c => Some c | None => d !! v2 end).
Proof.
  simpl. destruct (d !! v1) as [c1|] eqn:H1.
  - by destruct (contains_true _ _ _ H1) as [-> ->].
  - rewrite (contains_false _ _ H1).
    destruct (d !! v2) as [c2|] eqn:H2.
    + by destruct (contains_true _ _ _ H2) as [-> ->].
    + by rewrite (contains_false _ _ H2).
Qed.

(** The body of get_coordinates in closed form. *)
Lemma get_coordinates_str_eq (d : postcode_dict) (s : string) :
  get_coordinates_str d s
  = Ok (match d !! clean s with
        | Some c => Some c
        | None =>
            if (5 <=? Py.len (clean s))%nat then
              match d !! space_from_end 3 (clean s) with
              | Some c => Some c
              | None => d !! space_from_end 2 (clean s)
              end
            else None
        end).
Proof.
  unfold get_coordinates_str.
  destruct (d !! clean s) as [c|] eqn:Hn.
  - by destruct (contains_true _ _ _ Hn) as [-> ->].
  - rewrite (contains_false _ _ Hn).
    destruct (5 <=? Py.len (clean s))%nat eqn:Hlen; [|done].
    rewrite variants_formats. apply try_variants_two.
Qed.

(** get_coordinates on a string, in closed form. *)
Lemma get_coordinates_PyStr (d : postcode_dict) (s : string) :
  UKPostcodeDataset.get_coordinates d (PyStr s)
  = Ok (if Py.is_empty s then None
        else match d !! clean s with
             | Some c => Some c
             | None =>
                 if (5 <=? Py.len (clean s))%nat then
                   match d !! space_from_end 3 (clean s) with
                   | Some c => Some c
                   | None => d !! space_from_end 2 (clean s)
                   end
                 else None
             end).
Proof.
  cbn [UKPostcodeDataset.get_coordinates].
  destruct (Py.is_empty s); [reflexivity|]. apply get_coordinates_str_eq.
Qed.

(** On a string get_coordinates returns and does not raise. *)
Lemma get_coordinates_total (d : postcode_dict) (s : string) :
  ∃ r, UKPostcodeDataset.get_coordinates d (PyStr s) = Ok r.
Proof.
  simpl. destruct (Py.is_empty s); [by eexists|].
  rewrite get_coordinates_str_eq. by eexists.
Qed.

(** C1, as amended.  For every string, get_coordinates returns without
    raising and its result is that of the listed steps taken behind the
    two guards of the code: the empty string is not found; otherwise the
    input is normalized and looked up as it is, and only when the
    normalized form has at least 5 characters the variant with a space 3
    characters from the end, then the one with a space 2 characters from
    the end, are looked up, the first hit being returned. *)
Theorem get_coordinates_guarded_steps (d : postcode_dict) (postcode : string) :
  UKPostcodeDataset.get_coordinates d (PyStr postcode)
  = Ok (guarded_lookup_steps d postcode).
Proof. unfold guarded_lookup_steps. apply get_coordinates_PyStr. Qed.

(** C1, as stated, fails on a short input: with the single entry
    "M1 1A", the listed steps find the input "M11A" through the variant
    with a space 2 characters from the end, but the code, whose variants
    are guarded by a length of 5, returns not-found. *)
Lemma get_coordinates_unguarded_steps_fail :
  let d : postcode_dict := {[ "M1 1A" := fallback ]} in
  lookup_steps d "M11A" = Some fallback
  ∧ UKPostcodeDataset.get_coordinates d (PyStr "M11A") = Ok None
  ∧ UKPostcodeDataset.get_coordinates d (PyStr "M11A")
    ≠ Ok (lookup_steps d "M11A").
Proof.
  assert (Hs : lookup_steps {[ "M1 1A" := fallback ]} "M11A" = Some fallback)
    by (vm_compute; reflexivity).
  assert (Hc : UKPostcodeDataset.get_coordinates
                 ({[ "M1 1A" := fallback ]} : postcode_dict) (PyStr "M11A")
               = Ok None).
  { rewrite get_coordinates_PyStr. vm_compute. reflexivity. }
  intros d. split; [exact Hs|]. split; [exact Hc|].
  subst d. rewrite Hc, Hs. discriminate.
Qed.

(** C3.  For [None], for the empty string and for every string whose
    normalized form and spacing variants are all absent from the mapping,
    get_coordinates returns not-found; in particular it returns, and
    raises nothing. *)
Theorem get_coordinates_absent (d : postcode_dict) (postcode : pyval) :
  absent_input d postcode →
  UKPostcodeDataset.get_coordinates d postcode = Ok None.
Proof.
  intros [| |s Habs]; [reflexivity..|].
  rewrite get_coordinates_PyStr.
  destruct (Py.is_empty s); [reflexivity|].
  unfold formats in Habs.
  apply Forall_cons_1 in Habs as [-> Habs].
  apply Forall_cons_1 in Habs as [-> Habs].
  apply Forall_cons_1 in Habs as [-> _].
  by destruct (5 <=? _)%nat.
Qed.

Lemma get_coordinates_absent_witness :
  let d : postcode_dict := {[ "M1 1AA" := fallback ]} in
  absent_input d (PyStr "sw1a 1aa")
  ∧ UKPostcodeDataset.get_coordinates d (PyStr "sw1a 1aa") = Ok None.
Proof.
  assert (H : absent_input ({[ "M1 1AA" := fallback ]} : postcode_dict)
                (PyStr "sw1a 1aa")).
  { apply absent_str. vm_compute. repeat constructor. }
  split; [exact H|]. exact (get_coordinates_absent _ _ H).
Defined.

(** C2, as amended.  Take an entry [k] of the mapping that is written in
    one of the supported spacing formats of its normalized form (no
    space, space 3 from the end, space 2 from the end) and whose
    normalized form has at least 5 characters.  Then one coordinate is
    returned for every input that normalizes to the same form, whatever
    its letter case, surrounding whitespace and spacing; it is the
    entry's own coordinate when no other spacing format of that postcode
    is a key as well. *)
Theorem get_coordinates_spacing_invariant
    (d : postcode_dict) (k : string) (c : coord) :
  d !! k = Some c →
  k ∈ formats (clean k) →
  (5 ≤ Py.len (clean k))%nat →
  ∃ c', (∀ s, clean s = clean k →
              UKPostcodeDataset.get_coordinates d (PyStr s) = Ok (Some c'))
        ∧ ((∀ k', k' ∈ formats (clean k) → k' ≠ k → d !! k' = None) → c' = c).
Proof.
  intros Hk Hfmt Hlen.
  assert (Hget : ∀ s, clean s = clean k →
            UKPostcodeDataset.get_coordinates d (PyStr s)
            = Ok (match d !! clean k with
                  | Some x => Some x
                  | None =>
                      match d !! space_from_end 3 (clean k) with
                      | Some x => Some x
                      | None => d !! space_from_end 2 (clean k)
                      end
                  end)).
  { intros s Hs. rewrite get_coordinates_PyStr. rewrite Hs.
    destruct s as [|a s]; [simpl in Hs; rewrite <- Hs in Hlen; simpl in Hlen; lia|].
    cbn [Py.is_empty]. apply Nat.leb_le in Hlen. by rewrite Hlen. }
  set (n := clean k) in *.
  unfold formats in Hfmt. rewrite !elem_of_cons, elem_of_nil in Hfmt.
  destruct (d !! n) as [c0|] eqn:H0.
  { exists c0. split; [exact Hget|]. intros Huniq.
    destruct (decide (n = k)) as [->|Hne]; [congruence|].
    rewrite (Huniq n) in H0; [done| |done].
    unfold formats. rewrite !elem_of_cons. auto. }
  destruct (d !! space_from_end 3 n) as [c3|] eqn:H3.
  { exists c3. split; [exact Hget|]. intros Huniq.
    destruct (decide (space_from_end 3 n = k)) as [Heq|Hne]; [congruence|].
    rewrite (Huniq (space_from_end 3 n)) in H3; [done| |done].
    unfold formats. rewrite !elem_of_cons. auto. }
  destruct (d !! space_from_end 2 n) as [c2|] eqn:H2.
  { exists c2. split; [exact Hget|]. intros Huniq.
    destruct (decide (space_from_end 2 n = k)) as [Heq|Hne]; [congruence|].
    rewrite (Huniq (space_from_end 2 n)) in H2; [done| |done].
    unfold formats. rewrite !elem_of_cons. auto. }
  destruct Hfmt as [E|[E|[E|[]]]]; rewrite E in Hk; congruence.
Qed.

Lemma get_coordinates_spacing_invariant_witness :
  let d : postcode_dict := {[ "SW1A 1AA" := fallback ]} in
  d !! "SW1A 1AA" = Some fallback
  ∧ "SW1A 1AA" ∈ formats (clean "SW1A 1AA")
  ∧ (5 ≤ Py.len (clean "SW1A 1AA"))%nat
  ∧ ∃ c', (∀ s, clean s = clean "SW1A 1AA" →
               UKPostcodeDataset.get_coordinates d (PyStr s) = Ok (Some c'))
          ∧ ((∀ k', k' ∈ formats (clean "SW1A 1AA") → k' ≠ "SW1A 1AA" →
                    d !! k' = None) → c' = fallback).
Proof.
  assert (H1 : ({[ "SW1A 1AA" := fallback ]} : postcode_dict) !! "SW1A 1AA"
               = Some fallback) by (vm_compute; reflexivity).
  assert (H2 : "SW1A 1AA" ∈ formats (clean "SW1A 1AA"))
    by (apply list_elem_of_further, list_elem_of_here).
  assert (H3 : (5 ≤ Py.len (clean "SW1A 1AA"))%nat) by (vm_compute; lia).
  intros d. split; [exact H1|]. split; [exact H2|]. split; [exact H3|].
  exact (get_coordinates_spacing_invariant _ _ _ H1 H2 H3).
Defined.

(** C2, as stated, fails for a short entry: "A 1AA" is an entry written
    with a space 3 characters from the end, yet looking up that very
    string returns not-found, because its normalized form "A1AA" has
    fewer than 5 characters and the spaced variants are not tried. *)
Lemma get_coordinates_short_entry_not_found :
  let d : postcode_dict := {[ "A 1AA" := fallback ]} in
  d !! "A 1AA" = Some fallback
  ∧ "A 1AA" ∈ formats (clean "A 1AA")
  ∧ UKPostcodeDataset.get_coordinates d (PyStr "A 1AA") = Ok None
  ∧ UKPostcodeDataset.get_coordinates d (PyStr "a1aa") = Ok None.
Proof.
  intros d. split; [by vm_compute|].
  split; [apply list_elem_of_further, list_elem_of_here|].
  subst d. rewrite !get_coordinates_PyStr. by vm_compute.
Qed.

(** ** The dashboard's get_coordinates and load_data *)



Lemma mapM_Ok_lookup {A B : Type} (f : A → result B) (l : list A) (bs : list B) :
  mapM f l = Ok bs →
  List.length bs = List.length l
  ∧ ∀ i a, l !! i = Some a → ∃ b, f a = Ok b ∧ bs !! i = Some b.
Proof.
  revert bs. induction l as [|a l IH]; intros bs Hm; simpl in Hm.
  - injection Hm as <-. split; [done|]. intros i a Hi. by destruct i.
  - destruct (f a) as [b|e] eqn:Hfa; [|done]. simpl in Hm.
    destruct (mapM f l) as [bs'|e] eqn:Hl; [|done]. simpl in Hm.
    injection Hm as <-. destruct (IH _ eq_refl) as [Hlen Hlook].
    split; [simpl; by rewrite Hlen|].
    intros [|i] a' Hi; simpl in *.
    + injection Hi as <-. eauto.
    + eauto.
Qed.

Lemma mapM_total {A B : Type} (f : A → result B) (g : A → B) (l : list A) :
  Forall (λ a, f a = Ok (g a)) l → mapM f l = Ok (g <$> l).
Proof.
  induction 1 as [|a l Ha _ IH]; [done|].
  simpl. rewrite Ha. simpl. rewrite IH. done.
Qed.

Lemma mapM_Raise {A B : Type} (f : A → result B) (l : list A) (e : exn) :
  mapM f l = Raise e → ∃ a, a ∈ l ∧ f a = Raise e.
Proof.
  induction l as [|a l IH]; [done|]. simpl.
  destruct (f a) as [b|e'] eqn:Hfa; simpl.
  - destruct (mapM f l) as [bs|e'']; [done|]. simpl. intros [= ->].
    destruct (IH eq_refl) as (a' & Hin & Ha').
    exists a'. split; [by apply list_elem_of_further|done].
  - intros [= ->]. exists a. split; [apply list_elem_of_here|done].
Qed.

Lemma mapM_Ok {A B : Type} (f : A → result B) (l : list A) :
  Forall (λ a, ∃ b, f a = Ok b) l → ∃ bs, mapM f l = Ok bs.
Proof.
  induction 1 as [|a l [b Hb] _ [bs IH]]; [by eexists|].
  simpl. rewrite Hb. simpl. rewrite IH. by eexists.
Qed.

(** The lookup of the dataset raises on the truthy cells that are not
    strings, and on no other. *)
Lemma get_coordinates_Ok (d : postcode_dict) (v : pyval) :
  ¬ truthy_non_string v → ∃ r, UKPostcodeDataset.get_coordinates d v = Ok r.
Proof.
  destruct v as [| |s|q]; intros Hv.
  - by eexists.
  - by destruct Hv.
  - apply get_coordinates_total.
  - simpl in *. destruct (bool_decide (q = 0%Qc)) eqn:Hq; [by eexists|].
    apply bool_decide_eq_false in Hq. by destruct Hv.
Qed.

Lemma get_coordinates_Raise (d : postcode_dict) (v : pyval) (e : exn) :
  UKPostcodeDataset.get_coordinates d v = Raise e →
  e = AttributeError ∧ truthy_non_string v.
Proof.
  destruct v as [| |s|q].
  - done.
  - by intros [= <-].
  - by destruct (get_coordinates_total d s) as [r ->].
  - simpl. destruct (bool_decide (q = 0%Qc)) eqn:Hq; [done|].
    apply bool_decide_eq_false in Hq. by intros [= <-].
Qed.

(** The dashboard's lookup raises when a dataset is loaded and the cell
    is a truthy non-string, and in no other case. *)
Lemma dashboard_get_coordinates_Ok (self : dashboard) (v : pyval) :
  postcode_geocoder self = None ∨ ¬ truthy_non_string v →
  ∃ r, Dashboard.get_coordinates self v = Ok r.
Proof.
  unfold Dashboard.get_coordinates. destruct (postcode_geocoder self) as [d|].
  - intros [?|Hv]; [done|]. by apply get_coordinates_Ok.
  - by eexists.
Qed.

Lemma dashboard_get_coordinates_Raise (self : dashboard) (v : pyval) (e : exn) :
  Dashboard.get_coordinates self v = Raise e →
  e = AttributeError ∧ truthy_non_string v ∧ is_Some (postcode_geocoder self).
Proof.
  unfold Dashboard.get_coordinates. destruct (postcode_geocoder self) as [d|].
  - intros [-> Hv]%get_coordinates_Raise. by split; [|split; [|eexists]].
  - done.
Qed.

Lemma coords_entry_Ok (self : dashboard) (v : pyval) :
  postcode_geocoder self = None ∨ ¬ truthy_non_string v →
  ∃ c, Dashboard.coords_entry self v = Ok c.
Proof.
  intros Hv. unfold Dashboard.coords_entry.
  destruct (dashboard_get_coordinates_Ok self v Hv) as [r ->]. simpl.
  destruct r as [c|]; [|by eexists].
  destruct (bool_decide (c ≠ fallback)); by eexists.
Qed.

Lemma coords_entry_Raise (self : dashboard) (v : pyval) (e : exn) :
  Dashboard.coords_entry self v = Raise e →
  e = AttributeError ∧ truthy_non_string v ∧ is_Some (postcode_geocoder self).
Proof.
  unfold Dashboard.coords_entry.
  destruct (Dashboard.get_coordinates self v) as [r|e'] eqn:Hget; simpl.
  - destruct r as [c|]; [|done]. by destruct (bool_decide (c ≠ fallback)).
  - intros [= ->]. by apply dashboard_get_coordinates_Raise.
Qed.

Lemma coords_list_Ok (self : dashboard) (df : list PriceRecord) :
  postcode_geocoder self = None
  ∨ Forall (λ r, ¬ truthy_non_string (postcode r)) df →
  ∃ cs, coords_list self df = Ok cs.
Proof.
  intros Hdf. unfold coords_list. apply mapM_Ok, Forall_fmap.
  destruct Hdf as [Hnone|Hall].
  - apply list.Forall_forall. intros r _. apply coords_entry_Ok. by left.
  - eapply list.Forall_impl; [exact Hall|].
    intros r Hr. apply coords_entry_Ok. by right.
Qed.

Lemma coords_list_Raise (self : dashboard) (df : list PriceRecord) (e : exn) :
  coords_list self df = Raise e →
  e = AttributeError
  ∧ is_Some (postcode_geocoder self)
  ∧ ∃ r, r ∈ df ∧ truthy_non_string (postcode r).
Proof.
  unfold coords_list. intros (v & Hv & Hraise)%mapM_Raise.
  apply coords_entry_Raise in Hraise as (-> & Htruthy & Hsome).
  apply list_elem_of_fmap in Hv as (r & -> & Hr). eauto.
Qed.

(** load_data returns the rows that [dropna] keeps of the frame and its
    [coords_list], or raises what the loop over the postcodes raised. *)
Lemma load_data_Ok (self : dashboard) (df : list PriceRecord)
    (out : list (nat * GeoRecord)) :
  load_data self df = Ok out →
  ∃ cs, coords_list self df = Ok cs
        ∧ out = omap dropna_row (zip (zip (seq 0 (List.length df)) df) cs).
Proof.
  unfold load_data. destruct (coords_list self df) as [cs|e]; [|done].
  cbn [bind]. intros [= <-]. by exists cs.
Qed.

Lemma load_data_returns (self : dashboard) (df : list PriceRecord) :
  postcode_geocoder self = None
  ∨ Forall (λ r, ¬ truthy_non_string (postcode r)) df →
  ∃ out, load_data self df = Ok out.
Proof.
  intros [cs Hcs]%coords_list_Ok. unfold load_data. rewrite Hcs. by eexists.
Qed.





(** ** geocode_dataframe *)

Lemma column_set_column_eq (cols : list (string * list pyval)) (name : string)
    (vals : list pyval) :
  column (set_column cols name vals) name = Ok vals.
Proof.
  induction cols as [|[n old] cols IH]; simpl.
  - by rewrite bool_decide_eq_true_2.
  - destruct (bool_decide (n = name)) eqn:Hn; simpl; rewrite Hn; [done|apply IH].
Qed.

Lemma column_set_column_ne (cols : list (string * list pyval))
    (name name' : string) (vals : list pyval) :
  name' ≠ name →
  column (set_column cols name vals) name' = column cols name'.
Proof.
  intros Hne. induction cols as [|[n old] cols IH]; simpl.
  - by rewrite bool_decide_eq_false_2.
  - destruct (bool_decide (n = name)) eqn:Hn; simpl.
    + apply bool_decide_eq_true in Hn. subst n.
      by rewrite bool_decide_eq_false_2 by done.
    + destruct (bool_decide (n = name')); [done|apply IH].
Qed.

Lemma other_columns_set_column (cols : list (string * list pyval))
    (name : string) (vals : list pyval) :
  name = "lat" ∨ name = "lon" →
  other_columns (set_column cols name vals) = other_columns cols.
Proof.
  intros Hname. unfold other_columns.
  induction cols as [|[n old] cols IH]; simpl.
  - rewrite filter_cons_False; [done|]. simpl. intros [? ?]. by destruct Hname.
  - destruct (bool_decide (n = name)) eqn:Hn.
    + apply bool_decide_eq_true in Hn. subst n.
      rewrite !filter_cons_False; [done| |]; simpl; intros [? ?]; by destruct Hname.
    + rewrite !filter_cons. simpl. rewrite IH. done.
Qed.

Lemma coords_entry_looked_up (d : postcode_dict) (v : pyval) :
  str_or_none v → UKPostcodeDataset.coords_entry d v = Ok (looked_up d v).
Proof.
  intros Hv. unfold UKPostcodeDataset.coords_entry, looked_up.
  destruct v as [| |s|q]; try done.
  destruct (get_coordinates_total d s) as [r ->]. simpl.
  by destruct r as [[lat lon]|].
Qed.

Lemma mapM_coords_entry (d : postcode_dict) (postcodes : list pyval) :
  Forall str_or_none postcodes →
  mapM (UKPostcodeDataset.coords_entry d) postcodes = Ok (looked_up d <$> postcodes).
Proof.
  intros Hall. apply mapM_total.
  induction Hall as [|v l Hv _ IH]; constructor; [|exact IH].
  by apply coords_entry_looked_up.
Qed.

Lemma existsb_found (d : postcode_dict) (postcodes : list pyval)
    (proj : pyval * pyval → pyval) :
  proj = fst ∨ proj = snd →
  existsb is_float (proj <$> (looked_up d <$> postcodes))
  = existsb (λ v, bool_decide (is_Some (found d v))) postcodes.
Proof.
  intros Hproj. induction postcodes as [|v l IH]; [done|].
  rewrite !fmap_cons. cbn [existsb]. rewrite IH. f_equal.
  unfold looked_up, found.
  destruct (UKPostcodeDataset.get_coordinates d v) as [[[la lo]|]|e];
    destruct Hproj as [-> | ->]; done.
Qed.

Lemma as_column_lat (d : postcode_dict) (postcodes : list pyval) :
  as_column (fst <$> (looked_up d <$> postcodes))
  = lat_cell d postcodes <$> postcodes.
Proof.
  unfold as_column. rewrite (existsb_found d postcodes fst) by auto.
  unfold lat_cell, missing_value.
  destruct (existsb _ postcodes); rewrite <- ?list_fmap_compose;
    apply list_fmap_ext; intros i v _; cbn [compose];
    unfold looked_up, found;
    by destruct (UKPostcodeDataset.get_coordinates d v) as [[[la lo]|]|e].
Qed.

Lemma as_column_lon (d : postcode_dict) (postcodes : list pyval) :
  as_column (snd <$> (looked_up d <$> postcodes))
  = lon_cell d postcodes <$> postcodes.
Proof.
  unfold as_column. rewrite (existsb_found d postcodes snd) by auto.
  unfold lon_cell, missing_value.
  destruct (existsb _ postcodes); rewrite <- ?list_fmap_compose;
    apply list_fmap_ext; intros i v _; cbn [compose];
    unfold looked_up, found;
    by destruct (UKPostcodeDataset.get_coordinates d v) as [[[la lo]|]|e].
Qed.

(** C10, as amended.  On a dataframe with at least one row whose postcode
    column exists and holds strings or None, geocode_dataframe returns
    the dataframe.  With an empty mapping it is returned as it was.
    Otherwise the number of rows is unchanged, the columns other than lat
    and lon are unchanged and in their order, and the columns lat and lon
    (added, or overwritten when already there) hold for each row, in row
    order, the looked-up coordinate of its postcode, or a missing value
    when the lookup is not-found: NaN when the postcode of some row of
    the frame is found, None when none is. *)
Theorem geocode_dataframe_frame
    (d : postcode_dict) (df : DataFrame) (postcode_column : string)
    (postcodes : list pyval) :
  nrows df ≠ 0%nat →
  column (columns df) postcode_column = Ok postcodes →
  Forall str_or_none postcodes →
  ∃ df', geocode_dataframe d df postcode_column = (df', Ok tt)
    ∧ if decide (d = ∅) then df' = df
      else nrows df' = nrows df
           ∧ other_columns (columns df') = other_columns (columns df)
           ∧ column (columns df') "lat" = Ok (lat_cell d postcodes <$> postcodes)
           ∧ column (columns df') "lon" = Ok (lon_cell d postcodes <$> postcodes).
Proof.
  intros Hrows Hcol Hcells. unfold geocode_dataframe.
  destruct (decide (d = ∅)) as [Hd|Hd].
  - rewrite bool_decide_eq_true_2 by done. by eexists.
  - rewrite bool_decide_eq_false_2 by done.
    rewrite Hcol, (mapM_coords_entry d postcodes Hcells).
    rewrite bool_decide_eq_false_2 by done.
    eexists. split; [reflexivity|]. simpl.
    split; [done|].
    split.
    { rewrite !other_columns_set_column by auto. done. }
    split.
    + rewrite column_set_column_ne by done.
      rewrite column_set_column_eq. f_equal. apply as_column_lat.
    + rewrite column_set_column_eq. f_equal. apply as_column_lon.
Qed.

Lemma geocode_dataframe_frame_witness :
  let d : postcode_dict := {[ "N2 9QL" := fallback ]} in
  let df := {| nrows := 2;
               columns := [("postcode", [PyStr "n29ql"; PyStr "SW1A 1AA"]);
                           ("lat", [PyNone; PyNone])] |} in
  let postcodes := [PyStr "n29ql"; PyStr "SW1A 1AA"] in
  nrows df ≠ 0%nat
  ∧ column (columns df) "postcode" = Ok postcodes
  ∧ Forall str_or_none postcodes
  ∧ ∃ df', geocode_dataframe d df "postcode" = (df', Ok tt)
      ∧ if decide (d = ∅) then df' = df
        else nrows df' = nrows df
             ∧ other_columns (columns df') = other_columns (columns df)
             ∧ column (columns df') "lat"
               = Ok (lat_cell d postcodes <$> postcodes)
             ∧ column (columns df') "lon"
               = Ok (lon_cell d postcodes <$> postcodes).
Proof.
  intros d df postcodes.
  assert (H1 : nrows df ≠ 0%nat) by (simpl; lia).
  assert (H2 : column (columns df) "postcode" = Ok postcodes) by reflexivity.
  assert (H3 : Forall str_or_none postcodes) by (repeat constructor).
  split; [exact H1|]. split; [exact H2|]. split; [exact H3|].
  exact (geocode_dataframe_frame d df "postcode" postcodes H1 H2 H3).
Defined.

(** On a frame where one postcode is found and one is not, the cells of
    the row that is not found hold NaN; where none is found they hold
    None. *)
Example geocode_dataframe_missing_cells :
  let d : postcode_dict := {[ "N2 9QL" := (Qc_of_Z 51, Qc_of_Z 0) ]} in
  let mixed := {| nrows := 2;
                  columns := [("postcode", [PyStr "n29ql"; PyStr "SW1A 1AA"])] |} in
  let misses := {| nrows := 1; columns := [("postcode", [PyStr "SW1A 1AA"])] |} in
  column (columns (geocode_dataframe d mixed "postcode").1) "lat"
  = Ok [PyNum (Qc_of_Z 51); PyNaN]
  ∧ column (columns (geocode_dataframe d mixed "postcode").1) "lon"
    = Ok [PyNum (Qc_of_Z 0); PyNaN]
  ∧ column (columns (geocode_dataframe d misses "postcode").1) "lat"
    = Ok [PyNone].
Proof. by vm_compute. Qed.

(** C10, as stated, fails when the mapping is empty: the dataframe is
    returned without any lat or lon column. *)
Lemma geocode_dataframe_empty_mapping_adds_nothing :
  let df := {| nrows := 1; columns := [("postcode", [PyStr "N2 9QL"])] |} in
  geocode_dataframe ∅ df "postcode" = (df, Ok tt)
  ∧ column (columns (geocode_dataframe ∅ df "postcode").1) "lat" = Raise KeyError
  ∧ column (columns (geocode_dataframe ∅ df "postcode").1) "lon" = Raise KeyError.
Proof. by vm_compute. Qed.

(** ** District aggregation *)

Lemma compare_refl (a : string) : String.compare a a = Eq.
Proof.
  pose proof (String.compare_antisym a a) as H.
  destruct (String.compare a a); simpl in H; congruence.
Qed.

Lemma key_lt_irrefl (a : string) : ¬ key_lt a a.
Proof. unfold key_lt. by rewrite compare_refl. Qed.

Lemma key_lt_le (a b : string) : key_lt a b → String.le a b.
Proof. unfold key_lt, String.le, String.leb. by intros ->. Qed.

Lemma key_lt_asym (a b : string) : key_lt a b → ¬ key_lt b a.
Proof.
  unfold key_lt. intros Hab Hba.
  rewrite String.compare_antisym, Hba in Hab. done.
Qed.

Lemma key_lt_trans (a b c : string) : key_lt a b → key_lt b c → key_lt a c.
Proof.
  intros Hab Hbc.
  assert (Hle : String.le a c).
  { transitivity b; by apply key_lt_le. }
  unfold key_lt. unfold String.le, String.leb in Hle.
  destruct (String.compare a c) eqn:Hac; [|done|done].
  apply String.compare_eq_iff in Hac. subst c.
  by destruct (key_lt_asym _ _ Hab).
Qed.

Lemma compare_Gt_lt (a b : string) : String.compare a b = Gt → key_lt b a.
Proof.
  intros H. unfold key_lt. rewrite String.compare_antisym, H. done.
Qed.

Lemma lookup_group_above (k : string) (groups : list (string * list GeoRecord)) :
  keys_above k groups → lookup_group k groups = None.
Proof.
  induction 1 as [|[k' ms] groups Hk _ IH]; [done|]. simpl in *.
  rewrite decide_False; [done|]. intros ->. by apply key_lt_irrefl in Hk.
Qed.

Lemma keys_above_weaken (a b : string) (groups : list (string * list GeoRecord)) :
  key_lt a b → keys_above b groups → keys_above a groups.
Proof.
  intros Hab. unfold keys_above. induction 1 as [|g groups Hg _ IH];
    constructor; eauto using key_lt_trans.
Qed.

Lemma keys_above_insert (a k : string) (r : GeoRecord)
    (groups : list (string * list GeoRecord)) :
  key_lt a k → keys_above a groups → keys_above a (insert_group k r groups).
Proof.
  intros Hak. unfold keys_above.
  induction 1 as [|[k' ms] groups Hg Hgs IH]; simpl.
  - by repeat constructor.
  - destruct (String.compare k k'); repeat constructor; auto.
Qed.

Lemma insert_group_sorted (k : string) (r : GeoRecord)
    (groups : list (string * list GeoRecord)) :
  sorted_groups groups → sorted_groups (insert_group k r groups).
Proof.
  induction groups as [|[k' ms] groups IH]; simpl; [by split; [constructor|]|].
  intros [Habove Hsorted].
  destruct (String.compare k k') eqn:Hcmp; simpl.
  - done.
  - split; [|done]. constructor; [done|].
    by apply keys_above_weaken with k'.
  - split; [|auto]. apply keys_above_insert; [|done]. by apply compare_Gt_lt.
Qed.

Lemma insert_group_lookup (k k0 : string) (r : GeoRecord)
    (groups : list (string * list GeoRecord)) :
  sorted_groups groups →
  lookup_group k0 (insert_group k r groups)
  = if decide (k0 = k) then Some (default [] (lookup_group k groups) ++ [r])
    else lookup_group k0 groups.
Proof.
  induction groups as [|[k' ms] groups IH]; simpl.
  - intros _. destruct (decide (k = k0)) as [->|Hne].
    + by rewrite decide_True.
    + by rewrite decide_False by done.
  - intros [Habove Hsorted].
    destruct (String.compare k k') eqn:Hcmp; simpl.
    + apply String.compare_eq_iff in Hcmp. subst k'.
      rewrite (decide_True (P := k = k)) by done.
      destruct (decide (k = k0)) as [->|Hne].
      * by rewrite decide_True.
      * by rewrite decide_False by done.
    + assert (Hk' : k' ≠ k) by (intros ->; by apply key_lt_irrefl in Hcmp).
      rewrite (decide_False (P := k' = k)) by done.
      rewrite (lookup_group_above k groups)
        by (by apply keys_above_weaken with k').
      destruct (decide (k = k0)) as [->|Hne].
      * by rewrite decide_True.
      * by rewrite (decide_False (P := k0 = k)) by done.
    + assert (Hk' : k' ≠ k).
      { intros ->. rewrite compare_refl in Hcmp. done. }
      rewrite (decide_False (P := k' = k)) by done.
      destruct (decide (k' = k0)) as [->|Hne].
      * by rewrite decide_False by done.
      * by apply IH.
Qed.

Lemma members_of_snoc (k : string) (df : list GeoRecord) (r : GeoRecord) :
  members_of k (df ++ [r])
  = members_of k df ++ (if decide (district_of r = Some k) then [r] else []).
Proof.
  unfold members_of. rewrite list.filter_app. f_equal.
Qed.

Lemma groupby_snoc (df : list GeoRecord) (r : GeoRecord) :
  groupby (df ++ [r])
  = match district_of r with
    | Some k => insert_group k r (groupby df)
    | None => groupby df
    end.
Proof. unfold groupby. by rewrite foldl_app. Qed.

Lemma as_group_snoc (rows : list GeoRecord) (r : GeoRecord) :
  as_group (rows ++ [r]) = Some (rows ++ [r]).
Proof. by destruct rows. Qed.

Lemma as_group_default (rows : list GeoRecord) : default [] (as_group rows) = rows.
Proof. by destruct rows. Qed.

(** The groups of [groupby] are sorted by key, and the group of a key
    holds exactly the rows of that district, in the order of the frame. *)
Lemma groupby_spec (df : list GeoRecord) :
  sorted_groups (groupby df)
  ∧ ∀ k, lookup_group k (groupby df) = as_group (members_of k df).
Proof.
  induction df as [|r df [Hsorted Hlook]] using rev_ind; [done|].
  rewrite groupby_snoc. destruct (district_of r) as [k|] eqn:Hr.
  - split; [by apply insert_group_sorted|]. intros k0.
    rewrite insert_group_lookup by done. rewrite members_of_snoc, Hr.
    destruct (decide (k0 = k)) as [->|Hne].
    + rewrite decide_True by done. rewrite Hlook, as_group_default.
      by rewrite as_group_snoc.
    + rewrite decide_False by congruence. by rewrite app_nil_r.
  - split; [done|]. intros k0. rewrite members_of_snoc, Hr.
    rewrite decide_False by done. by rewrite app_nil_r.
Qed.

Lemma sorted_groups_lookup (k : string) (ms : list GeoRecord)
    (groups : list (string * list GeoRecord)) :
  sorted_groups groups → (k, ms) ∈ groups → lookup_group k groups = Some ms.
Proof.
  induction groups as [|[k' ms'] groups IH]; simpl.
  - intros _ Hin. by apply elem_of_nil in Hin.
  - intros [Habove Hsorted] Hin. apply elem_of_cons in Hin as [Heq|Hin].
    + injection Heq as <- <-. by rewrite decide_True.
    + rewrite decide_False; [by apply IH|]. intros ->.
      unfold keys_above in Habove. rewrite Forall_forall in Habove.
      apply (key_lt_irrefl k). apply (Habove (k, ms)).
      by apply list_elem_of_In.
Qed.

(** Each group is the list of the rows of its district, which is not
    empty. *)
Lemma groupby_members (k : string) (ms : list GeoRecord) (df : list GeoRecord) :
  (k, ms) ∈ groupby df → ms = members_of k df ∧ ms ≠ [].
Proof.
  intros Hin. destruct (groupby_spec df) as [Hsorted Hlook].
  pose proof (sorted_groups_lookup _ _ _ Hsorted Hin) as H.
  rewrite Hlook in H. destruct (members_of k df) as [|r rows]; [done|].
  simpl in H. injection H as <-. done.
Qed.

Lemma mean_Some (xs : list Qc) (m : Qc) :
  mean xs = Some m → xs ≠ [] ∧ m = (sum xs / Qc_of_nat (List.length xs))%Qc.
Proof. destruct xs as [|x xs]; [done|]. simpl. intros [= <-]. done. Qed.

(** The fields of an aggregate, read off the rows of its group. *)
Lemma agg_fields (k : string) (ms : list GeoRecord) (d : DistrictAggregate) :
  agg (k, ms) = Some d →
  postcode_district d = k
  ∧ mean ((λ r, priceper (price_record r)) <$> ms) = Some (avg_price d)
  ∧ property_count d = List.length ms
  ∧ mean (lat <$> ms) = Some (agg_lat d)
  ∧ mean (lon <$> ms) = Some (agg_lon d)
  ∧ head ((λ r, area (price_record r)) <$> ms) = Some (agg_area d).
Proof.
  unfold agg, first, count.
  destruct (mean ((λ r, priceper (price_record r)) <$> ms)) as [p|]; [|done].
  destruct (mean (lat <$> ms)) as [la|]; [|done].
  destruct (mean (lon <$> ms)) as [lo|]; [|done].
  destruct (head _) as [a|]; [|done]. simpl.
  intros [= <-]. simpl. by rewrite length_fmap.
Qed.

(** Every emitted aggregate is the aggregate of the rows of its district,
    of which there are at least three. *)
Lemma district_df_elem (df : list GeoRecord) (d : DistrictAggregate) :
  d ∈ district_df df →
  agg (postcode_district d, members_of (postcode_district d) df) = Some d
  ∧ (3 ≤ property_count d)%nat.
Proof.
  unfold district_df. intros Hin.
  apply list_elem_of_filter in Hin as [Hcount Hin].
  apply list_elem_of_omap in Hin as [[k ms] [Hin Hagg]].
  destruct (groupby_members _ _ _ Hin) as [-> _].
  destruct (agg_fields _ _ _ Hagg) as [-> _]. done.
Qed.

(** C4.  Every emitted district aggregate has a property_count of at
    least 3, and that count is the number of input records of the
    district. *)
Theorem district_df_count (df : list GeoRecord) (d : DistrictAggregate) :
  d ∈ district_df df →
  (3 ≤ property_count d)%nat
  ∧ property_count d = List.length (members_of (postcode_district d) df).
Proof.
  intros Hin. destruct (district_df_elem _ _ Hin) as [Hagg Hcount].
  split; [done|]. by destruct (agg_fields _ _ _ Hagg) as (_ & _ & -> & _).
Qed.

Lemma district_df_count_witness :
  ∃ d, d ∈ district_df five_records
       ∧ (3 ≤ property_count d)%nat
       ∧ property_count d
         = List.length (members_of (postcode_district d) five_records).
Proof.
  assert (H : ∃ d, d ∈ district_df five_records).
  { destruct (district_df five_records) as [|d l] eqn:E;
      [vm_compute in E; discriminate|].
    exists d. apply list_elem_of_here. }
  destruct H as [d Hin].
  exists d. split; [exact Hin|]. exact (district_df_count five_records d Hin).
Defined.

(** On the five-record frame the only aggregate is that of N2: three
    records, mean price (3000 + 4000 + 5000) / 3 = 4000, centroid
    (53, 2), and the area label of the first N2 record. *)
Example district_df_five_records :
  (λ d, (postcode_district d, property_count d, agg_area d,
         Qeq_bool (avg_price d) 4000, Qeq_bool (agg_lat d) 53,
         Qeq_bool (agg_lon d) 2)) <$> district_df five_records
  = [("N2", 3%nat, "Barnet", true, true, true)].
Proof. by vm_compute. Qed.

(** ** extract_postcode_district *)

Lemma greedy_hit (lo : nat) (cont : nat → option nat) (k n : nat) :
  (lo ≤ k)%nat → cont k = Some n → Re.greedy lo cont k = Some (k + n)%nat.
Proof.
  intros Hlo Hk. destruct k; simpl; rewrite Hk;
    by rewrite (proj2 (Nat.leb_le _ _) Hlo).
Qed.

Lemma greedy_below (lo : nat) (cont : nat → option nat) (k : nat) :
  (k < lo)%nat → Re.greedy lo cont k = None.
Proof.
  intros Hlt. destruct k; simpl; by rewrite (proj2 (Nat.leb_gt _ _) Hlt).
Qed.

Lemma greedy_miss (lo : nat) (cont : nat → option nat) (k : nat) :
  cont (S k) = None → Re.greedy lo cont (S k) = Re.greedy lo cont k.
Proof.
  intros Hk. simpl. rewrite Hk.
  destruct (lo <=? S k)%nat eqn:Hlo; [done|].
  apply Nat.leb_gt in Hlo. symmetry. apply greedy_below. lia.
Qed.

Lemma drop_drop (a b : nat) (s : string) :
  Re.drop b (Re.drop a s) = Re.drop (a + b) s.
Proof.
  revert s. induction a as [|a IH]; intros s; [done|].
  destruct s as [|c s]; simpl; [by destruct b|]. apply IH.
Qed.

Lemma count_prefix_drop (p : ascii → bool) (k : nat) (s : string) :
  (k ≤ Re.count_prefix p s)%nat →
  Re.count_prefix p (Re.drop k s) = (Re.count_prefix p s - k)%nat.
Proof.
  revert s. induction k as [|k IH]; intros s Hk; [simpl; lia|].
  destruct s as [|c s]; simpl in *; [lia|].
  destruct (p c); [|lia]. apply IH. lia.
Qed.

Lemma upper_not_digit (c : ascii) : Py.is_upper c = true → Py.is_digit c = false.
Proof.
  unfold Py.is_upper, Py.is_digit. intros H.
  apply andb_prop in H as [H1 _]. apply Nat.leb_le in H1.
  apply andb_false_intro2. apply Nat.leb_gt. lia.
Qed.

Lemma letters_no_digits (s : string) :
  (1 ≤ Re.count_prefix Py.is_upper s)%nat → Re.count_prefix Py.is_digit s = 0%nat.
Proof.
  destruct s as [|c s]; simpl; [lia|].
  destruct (Py.is_upper c) eqn:Hc; [|lia].
  by rewrite (upper_not_digit c Hc).
Qed.

Lemma match_here_cons (it : Re.item) (rest : list Re.item) (s : string) :
  Re.match_here (it :: rest) s
  = Re.greedy (Re.lo it) (λ k, Re.match_here rest (Re.drop k s))
      (Nat.min (Re.hi it) (Re.count_prefix (Re.cls it) s)).
Proof. reflexivity. Qed.

(** The optional letter [[A-Z]?] always matches: one letter when there
    is one, none otherwise. *)
Lemma match_optional_letter (s : string) :
  Re.match_here [ {| Re.cls := Py.is_upper; Re.lo := 0; Re.hi := 1 |} ] s
  = Some (Nat.min 1 (Re.count_prefix Py.is_upper s)).
Proof.
  simpl. rewrite (greedy_hit 0 _ _ 0); [|lia|done]. f_equal. lia.
Qed.

(** The digits and the optional letter. *)
Lemma match_digits_letter (s : string) :
  Re.match_here [ {| Re.cls := Py.is_digit; Re.lo := 1; Re.hi := 2 |};
                  {| Re.cls := Py.is_upper; Re.lo := 0; Re.hi := 1 |} ] s
  = let nd := Re.count_prefix Py.is_digit s in
    if (1 <=? nd)%nat then
      Some (Nat.min 2 nd
            + Nat.min 1 (Re.count_prefix Py.is_upper (Re.drop (Nat.min 2 nd) s)))%nat
    else None.
Proof.
  cbn zeta. cbn [Re.match_here Re.lo Re.hi Re.cls].
  destruct (1 <=? Re.count_prefix Py.is_digit s)%nat eqn:Hnd.
  - apply Nat.leb_le in Hnd. apply greedy_hit; [lia|].
    pose proof (match_optional_letter
                  (Re.drop (Nat.min 2 (Re.count_prefix Py.is_digit s)) s)) as H.
    cbn [Re.match_here Re.lo Re.hi Re.cls] in H. exact H.
  - apply Nat.leb_gt in Hnd. apply greedy_below. lia.
Qed.

(** The pattern [^([A-Z]{1,2}\d{1,2}[A-Z]?)] selects the outward prefix:
    backtracking never changes the outcome, because no letter is a
    digit. *)
Lemma match_district_pattern (word : string) :
  Re.match_group district_pattern word = outward_prefix word.
Proof.
  unfold Re.match_group, outward_prefix, district_pattern.
  set (I2 := {| Re.cls := Py.is_digit; Re.lo := 1; Re.hi := 2 |}).
  set (I3 := {| Re.cls := Py.is_upper; Re.lo := 0; Re.hi := 1 |}).
  rewrite match_here_cons. cbn [Re.lo Re.hi Re.cls].
  set (nl := Re.count_prefix Py.is_upper word).
  assert (Hcont : ∀ k, (k ≤ nl)%nat →
            Re.match_here [I2; I3] (Re.drop k word)
            = if decide (k = nl) then
                let nd := Re.count_prefix Py.is_digit (Re.drop nl word) in
                if (1 <=? nd)%nat then
                  Some (Nat.min 2 nd
                        + Nat.min 1 (Re.count_prefix Py.is_upper
                                       (Re.drop (nl + Nat.min 2 nd) word)))%nat
                else None
              else None).
  { intros k Hk. subst I2 I3. rewrite match_digits_letter. cbn zeta.
    destruct (decide (k = nl)) as [->|Hne].
    - by rewrite drop_drop.
    - rewrite letters_no_digits; [done|].
      rewrite count_prefix_drop by (fold nl; lia). fold nl. lia. }
  set (nd := Re.count_prefix Py.is_digit (Re.drop nl word)) in *.
  cbn zeta in Hcont.
  destruct (decide (nl = 0)%nat) as [H0|H0].
  { rewrite H0. simpl. done. }
  destruct (decide (nl = 1)%nat) as [H1|H1].
  { rewrite H1. change (Nat.min 2 1) with 1%nat.
    destruct (1 <=? nd)%nat eqn:Hnd.
    - erewrite greedy_hit;
        [|lia|rewrite Hcont by lia; rewrite decide_True by lia; reflexivity].
      rewrite H1. cbn [mbind option_bind]. by rewrite Nat.add_assoc.
    - rewrite greedy_miss.
      + rewrite greedy_below by lia. done.
      + rewrite Hcont by lia. by rewrite decide_True by lia. }
  destruct (decide (nl = 2)%nat) as [H2|H2].
  { rewrite H2. change (Nat.min 2 2) with 2%nat.
    destruct (1 <=? nd)%nat eqn:Hnd.
    - erewrite greedy_hit;
        [|lia|rewrite Hcont by lia; rewrite decide_True by lia; reflexivity].
      rewrite H2. cbn [mbind option_bind]. by rewrite Nat.add_assoc.
    - rewrite greedy_miss.
      + rewrite greedy_miss.
        * rewrite greedy_below by lia. done.
        * rewrite Hcont by lia. by rewrite decide_False by lia.
      + rewrite Hcont by lia. by rewrite decide_True by lia. }
  assert (Hmin : Nat.min 2 nl = 2%nat) by lia. rewrite Hmin.
  rewrite greedy_miss.
  - rewrite greedy_miss.
    + rewrite greedy_below by lia.
      replace (nl <=? 2)%nat with false by (symmetry; apply Nat.leb_gt; lia).
      by rewrite andb_false_r.
    + rewrite Hcont by lia. by rewrite decide_False by lia.
  - rewrite Hcont by lia. by rewrite decide_False by lia.
Qed.

Lemma append_cons (a : ascii) (t s : string) :
  String a t +:+ s = String a (t +:+ s).
Proof. reflexivity. Qed.

Lemma append_empty_r (t : string) : t +:+ "" = t.
Proof. induction t as [|a t IH]; [done|]. by rewrite append_cons, IH. Qed.

Lemma string_of_list_ascii_snoc (l : list ascii) (c : ascii) (s : string) :
  string_of_list_ascii (l ++ [c]) +:+ s = string_of_list_ascii l +:+ String c s.
Proof.
  induction l as [|a l IH]; [done|].
  cbn [string_of_list_ascii app]. by rewrite !append_cons, IH.
Qed.

(** With a word under way, [split] first yields that word, carried on
    to the next whitespace character. *)
Lemma split_aux_head (cur : list ascii) (s : string) :
  cur ≠ [] →
  head (Py.split_aux cur s)
  = Some (string_of_list_ascii (rev cur)
          +:+ Re.take (Re.count_prefix (λ a, negb (Py.isspace a)) s) s).
Proof.
  revert cur. induction s as [|c s IH]; intros cur Hcur;
    cbn [Py.split_aux Re.count_prefix].
  - destruct cur; [done|]. cbn [head Re.take]. by rewrite append_empty_r.
  - destruct (Py.isspace c); cbn [negb].
    + destruct cur; [done|]. cbn [head Re.take]. by rewrite append_empty_r.
    + rewrite IH by done. cbn [rev Re.take].
      by rewrite string_of_list_ascii_snoc.
Qed.

(** The first element of [s.split()] is the first word of [s]. *)
Lemma split_head (s : string) : head (Py.split s) = first_word s.
Proof.
  unfold Py.split. induction s as [|c s IH]; simpl; [done|].
  destruct (Py.isspace c) eqn:Hc; [exact IH|].
  rewrite split_aux_head by done. reflexivity.
Qed.

(** C7, as amended.  The grouping key of a postcode is taken from the
    first whitespace-delimited word of its stripped, uppercased text:
    that word must begin with one or two letters followed by a digit, and
    the key is those letters, the first one or two digits, and the next
    character when it is a letter ("SW1A" for "SW1A 1AA").  A missing
    postcode (None, NaN), an empty one, and one whose first word has no
    such prefix, map to no district. *)
Theorem extract_postcode_district_outward (postcode : pyval) :
  extract_postcode_district postcode
  = match postcode with
    | PyStr s => first_word (Py.upper (Py.strip s)) ≫= outward_prefix
    | PyNone | PyNaN | PyNum _ => None
    end.
Proof.
  destruct postcode as [| |s|q]; try reflexivity.
  unfold extract_postcode_district.
  rewrite <- split_head.
  destruct s as [|c s]; [reflexivity|]. cbn [Py.is_empty].
  destruct (Py.split _) as [|district parts]; [reflexivity|].
  cbn [head mbind option_bind]. apply match_district_pattern.
Qed.

(** C7, as stated, fails on its own example: for "SW1A 1AA" the leading
    letters and the first digit group are "SW1", but the key computed is
    "SW1A".  A word with three leading letters has no key at all. *)
Lemma extract_postcode_district_keeps_letter :
  claimed_district "SW1A 1AA" = Some "SW1"
  ∧ extract_postcode_district (PyStr "SW1A 1AA") = Some "SW1A"
  ∧ extract_postcode_district (PyStr "SW1A 1AA") ≠ claimed_district "SW1A 1AA"
  ∧ claimed_district "ABC1 2DE" = Some "ABC1"
  ∧ extract_postcode_district (PyStr "ABC1 2DE") = None.
Proof. repeat split; by vm_compute. Qed.

Example extract_postcode_district_examples :
  extract_postcode_district <$>
    [PyStr "NW3 5AB"; PyStr " m1 1aa "; PyStr "N29QL"; PyStr "EC1A 1BB";
     PyStr "A123 4BC"; PyStr "12 AB"; PyStr "   "; PyNone; PyNaN]
  = [Some "NW3"; Some "M1"; Some "N29Q"; Some "EC1A";
     Some "A12"; None; None; None; None].
Proof. by vm_compute. Qed.

(** * Further properties of the code *)

(** ** get_coordinates: what it returns and when it raises *)

(** A coordinate that get_coordinates returns is stored in the mapping,
    under one of the three spacing formats of the normalized input; the
    input is then a non-empty string. *)
Theorem get_coordinates_returns_stored
    (d : postcode_dict) (postcode : pyval) (c : coord) :
  UKPostcodeDataset.get_coordinates d postcode = Ok (Some c) →
  ∃ s k, postcode = PyStr s ∧ s ≠ "" ∧ k ∈ formats (clean s) ∧ d !! k = Some c.
Proof.
  destruct postcode as [| |s|q]; try done.
  - rewrite get_coordinates_PyStr. destruct s as [|a s]; [done|].
    cbn [Py.is_empty]. unfold formats.
    destruct (d !! clean (String a s)) as [c0|] eqn:H0.
    { intros [= <-]. eexists _, _. split; [done|]. split; [done|].
      split; [apply list_elem_of_here|done]. }
    destruct (5 <=? _)%nat; [|done].
    destruct (d !! space_from_end 3 (clean (String a s))) as [c3|] eqn:H3.
    { intros [= <-]. eexists _, _. split; [done|]. split; [done|].
      split; [apply list_elem_of_further, list_elem_of_here|done]. }
    intros [= H2]. eexists _, _. split; [done|]. split; [done|].
    split; [do 2 apply list_elem_of_further; apply list_elem_of_here|done].
  - simpl. by destruct (bool_decide (q = 0%Qc)).
Qed.

Lemma get_coordinates_returns_stored_witness :
  let d : postcode_dict := {[ "N2 9QL" := fallback ]} in
  UKPostcodeDataset.get_coordinates d (PyStr " n29ql ") = Ok (Some fallback)
  ∧ ∃ s k, PyStr " n29ql " = PyStr s ∧ s ≠ "" ∧ k ∈ formats (clean s)
           ∧ d !! k = Some fallback.
Proof.
  intros d.
  assert (H : UKPostcodeDataset.get_coordinates d (PyStr " n29ql ")
              = Ok (Some fallback)) by (vm_compute; reflexivity).
  split; [exact H|]. exact (get_coordinates_returns_stored d _ _ H).
Defined.

(** get_coordinates raises only AttributeError, and exactly on the
    arguments that are truthy without being strings: NaN and the numbers
    other than zero.  The indexing of the mapping never raises KeyError. *)
Theorem get_coordinates_raises_iff (d : postcode_dict) (postcode : pyval) :
  (∀ e, UKPostcodeDataset.get_coordinates d postcode = Raise e → e = AttributeError)
  ∧ (UKPostcodeDataset.get_coordinates d postcode = Raise AttributeError
     ↔ postcode = PyNaN ∨ ∃ q, postcode = PyNum q ∧ q ≠ 0%Qc).
Proof.
  destruct postcode as [| |s|q].
  - split; [done|]. split; [done|]. intros [?|(? & ? & ?)]; done.
  - split; [by intros e [= <-]|]. split; [auto|done].
  - destruct (get_coordinates_total d s) as [r Hr]. rewrite Hr.
    split; [done|]. split; [done|]. intros [?|(? & ? & ?)]; done.
  - simpl. destruct (bool_decide (q = 0%Qc)) eqn:Hq.
    + apply bool_decide_eq_true in Hq. split; [done|]. split; [done|].
      intros [?|(q' & [= <-] & ?)]; done.
    + apply bool_decide_eq_false in Hq. split; [by intros e [= <-]|].
      split; [eauto|done].
Qed.

(** ** load_data after a failed load, and the rows load_data keeps *)

Lemma mapM_const {A B : Type} (f : A → result B) (b : B) (l : list A) :
  (∀ a, f a = Ok b) → mapM f l = Ok (replicate (List.length l) b).
Proof.
  intros Hf. induction l as [|a l IH]; [done|].
  simpl. rewrite Hf. simpl. rewrite IH. done.
Qed.

Lemma dropna_all_missing (df : list PriceRecord) (start : nat) :
  omap dropna_row
    (zip (zip (seq start (List.length df)) df)
         (replicate (List.length df) (None, None)))
  = [].
Proof.
  revert start. induction df as [|r df IH]; intros start; [done|].
  simpl. apply IH.
Qed.

(** When the postcode dataset failed to load, every lookup is the
    fallback, which load_data takes for a miss: load_data then returns
    an empty frame, whatever records it was given. *)
Theorem failed_load_empties_load_data (env : environment) (df : list PriceRecord) :
  (load_postcode_data env false ∅).2 = false →
  load_data (init env) df = Ok [].
Proof.
  intros Hfail. unfold load_data, coords_list.
  rewrite (mapM_const _ (None, None)).
  - cbn [bind]. rewrite length_fmap. by rewrite dropna_all_missing.
  - intros p. unfold Dashboard.coords_entry, Dashboard.get_coordinates, init.
    destruct (load_postcode_data env false ∅) as [d' loaded].
    simpl in Hfail. subst loaded. cbn [postcode_geocoder bind].
    by rewrite bool_decide_eq_false_2 by (intros H; by apply H).
Qed.

Lemma failed_load_empties_load_data_witness :
  let env := {| cache_exists := true; cache_contents := None;
                csv_exists := true; download_doogal_postcode_data := true;
                read_csv := None; cache_writable := true |} in
  let df := [ {| postcode := PyStr "N2 9QL"; priceper := Qc_of_Z 5000;
                 area := "Barnet" |};
              {| postcode := PyNum (Qc_of_Z 12345); priceper := Qc_of_Z 4000;
                 area := "Barnet" |} ] in
  (load_postcode_data env false ∅).2 = false
  ∧ load_data (init env) df = Ok [].
Proof.
  intros env df.
  assert (H : (load_postcode_data env false ∅).2 = false) by reflexivity.
  split; [exact H|]. exact (failed_load_empties_load_data env df H).
Defined.

Lemma load_rows_elem (df : list PriceRecord) (cs : list (option Qc * option Qc))
    (i : nat) (g : GeoRecord) :
  (i, g) ∈ omap dropna_row (zip (zip (seq 0 (List.length df)) df) cs)
  ↔ ∃ r x y, df !! i = Some r ∧ cs !! i = Some (Some x, Some y)
             ∧ g = {| price_record := r; lat := x; lon := y |}.
Proof.
  rewrite list_elem_of_omap. split.
  - intros [[[j r] [la lo]] [Hin Hrow]].
    apply list_elem_of_lookup in Hin as [n Hn].
    rewrite lookup_zip_with in Hn.
    destruct (zip (seq 0 (List.length df)) df !! n) as [[j' r']|] eqn:Hz;
      [|done]. simpl in Hn.
    destruct (cs !! n) as [c|] eqn:Hc; [|done]. simpl in Hn.
    injection Hn as -> -> ->.
    rewrite lookup_zip_with in Hz.
    destruct (seq 0 (List.length df) !! n) as [j''|] eqn:Hs; [|done].
    simpl in Hz. destruct (df !! n) as [r''|] eqn:Hr; [|done]. simpl in Hz.
    injection Hz as -> ->.
    apply lookup_seq in Hs as [-> _]. simpl in Hrow.
    destruct la as [x|], lo as [y|]; try done.
    injection Hrow as <- <-. simpl in *. eauto 10.
  - intros (r & x & y & Hr & Hc & ->).
    exists (i, r, (Some x, Some y)). split; [|done].
    apply list_elem_of_lookup. exists i.
    rewrite !lookup_zip_with, Hr, Hc.
    rewrite (proj2 (lookup_seq 0 (List.length df) i i)); [done|].
    split; [done|]. by apply lookup_lt_Some in Hr.
Qed.

Lemma load_rows_order (df : list PriceRecord) (cs : list (option Qc * option Qc))
    (start : nat) :
  (omap dropna_row (zip (zip (seq start (List.length df)) df) cs)).*1
  `sublist_of` seq start (List.length df).
Proof.
  revert start cs. induction df as [|r df IH]; intros start cs; [constructor|].
  destruct cs as [|[la lo] cs]; [apply sublist_nil_l|].
  cbn [List.length seq zip_with omap list_omap].
  destruct (dropna_row (start, r, (la, lo))) as [[j g]|] eqn:Hrow.
  - assert (j = start) as ->.
    { simpl in Hrow. destruct la, lo; try done. by injection Hrow as <- _. }
    rewrite fmap_cons. apply sublist_skip, IH.
  - apply sublist_cons, IH.
Qed.

Lemma load_data_elem (self : dashboard) (df : list PriceRecord)
    (out : list (nat * GeoRecord)) (i : nat) (g : GeoRecord) :
  load_data self df = Ok out →
  (i, g) ∈ out
  ↔ ∃ r c, df !! i = Some r
           ∧ Dashboard.get_coordinates self (postcode r) = Ok (Some c)
           ∧ c ≠ fallback
           ∧ g = {| price_record := r; lat := c.1; lon := c.2 |}.
Proof.
  intros (cs & Hcs & ->)%load_data_Ok. rewrite load_rows_elem.
  destruct (mapM_Ok_lookup _ _ _ Hcs) as [_ Hl].
  split.
  - intros (r & x & y & Hr & Hc & ->). exists r.
    destruct (Hl i (postcode r)) as [b [Hb Hci]];
      [by rewrite list_lookup_fmap, Hr|].
    rewrite Hc in Hci. injection Hci as <-.
    unfold Dashboard.coords_entry in Hb.
    destruct (Dashboard.get_coordinates self (postcode r))
      as [[c|]|e]; unfold bind in Hb; try done.
    destruct (bool_decide (c ≠ fallback)) eqn:Hne; [|done].
    apply bool_decide_eq_true in Hne. injection Hb as <- <-.
    exists c. done.
  - intros (r & c & Hr & Hget & Hne & ->). exists r, c.1, c.2.
    split; [done|]. split; [|done].
    destruct (Hl i (postcode r)) as [b [Hb ->]];
      [by rewrite list_lookup_fmap, Hr|].
    unfold Dashboard.coords_entry in Hb. rewrite Hget in Hb. unfold bind in Hb.
    rewrite bool_decide_eq_true_2 in Hb by done. congruence.
Qed.

Lemma coords_entry_truthy (self : dashboard) (d : postcode_dict) (v : pyval) :
  postcode_geocoder self = Some d →
  truthy_non_string v →
  Dashboard.coords_entry self v = Raise AttributeError.
Proof.
  intros Hd Hv. unfold Dashboard.coords_entry, Dashboard.get_coordinates.
  rewrite Hd. destruct v as [| |s|q]; try done.
  simpl in *. by rewrite bool_decide_eq_false_2.
Qed.

Lemma load_data_returns_iff (self : dashboard) (df : list PriceRecord) :
  (∃ out, load_data self df = Ok out)
  ↔ postcode_geocoder self = None
    ∨ Forall (λ r, ¬ truthy_non_string (postcode r)) df.
Proof.
  split; [|apply load_data_returns].
  intros [out (cs & Hcs & _)%load_data_Ok].
  destruct (postcode_geocoder self) as [d|] eqn:Hd; [right|by left].
  apply list.Forall_forall. intros r Hr Htruthy.
  destruct (mapM_Ok_lookup _ _ _ Hcs) as [_ Hl].
  apply list_elem_of_lookup in Hr as [i Hi].
  destruct (Hl i (postcode r)) as [b [Hb _]];
    [by rewrite list_lookup_fmap, Hi|].
  by rewrite (coords_entry_truthy self d) in Hb.
Qed.

Lemma load_data_raises (self : dashboard) (df : list PriceRecord) (e : exn) :
  load_data self df = Raise e → e = AttributeError.
Proof.
  unfold load_data.
  destruct (coords_list self df) as [cs|e'] eqn:Hcs; [done|].
  cbn [bind]. intros [= ->]. by apply coords_list_Raise in Hcs as [-> _].
Qed.

(** load_data returns exactly when no dataset is loaded or no postcode
    cell is a truthy non-string (NaN or a number other than zero), and
    raises AttributeError otherwise.  When it returns, it keeps exactly
    the records whose lookup is a coordinate other than the fallback:
    each kept row carries the index it had in the frame and that
    coordinate, and the rows stay in the order of the frame. *)
Theorem load_data_keeps_located (self : dashboard) (df : list PriceRecord) :
  ((∃ out, load_data self df = Ok out)
   ↔ postcode_geocoder self = None
     ∨ Forall (λ r, ¬ truthy_non_string (postcode r)) df)
  ∧ (∀ e, load_data self df = Raise e → e = AttributeError)
  ∧ ∀ out,
      load_data self df = Ok out →
      out.*1 `sublist_of` seq 0 (List.length df)
      ∧ ∀ i g,
          (i, g) ∈ out
          ↔ ∃ r c, df !! i = Some r
                   ∧ Dashboard.get_coordinates self (postcode r) = Ok (Some c)
                   ∧ c ≠ fallback
                   ∧ g = {| price_record := r; lat := c.1; lon := c.2 |}.
Proof.
  split; [apply load_data_returns_iff|]. split; [apply load_data_raises|].
  intros out Hout. split.
  - apply load_data_Ok in Hout as (cs & _ & ->). apply load_rows_order.
  - intros i g. by apply load_data_elem.
Qed.

Lemma load_data_keeps_located_witness :
  let self := {| postcode_geocoder :=
                   Some {[ "N2 9QL" := (Qc_of_Z 51, Qc_of_Z 0) ]} |} in
  let located := {| postcode := PyStr "n2 9ql"; priceper := Qc_of_Z 5000;
                    area := "Barnet" |} in
  let numeric := {| postcode := PyNum (Qc_of_Z 12345);
                    priceper := Qc_of_Z 4000; area := "Barnet" |} in
  load_data self [located; numeric] = Raise AttributeError
  ∧ ∃ out,
      load_data self [located] = Ok out
      ∧ ((0%nat, {| price_record := located; lat := Qc_of_Z 51;
                    lon := Qc_of_Z 0 |}) ∈ out).
Proof.
  intros self located numeric.
  split; [by vm_compute|].
  destruct (load_data_keeps_located self [located]) as (Hreturns & _ & Hkeeps).
  assert (H0 : Forall (λ r, ¬ truthy_non_string (postcode r)) [located]).
  { repeat constructor. by intros []. }
  destruct (proj2 Hreturns (or_intror H0)) as [out Hout].
  exists out. split; [exact Hout|].
  apply (proj2 (Hkeeps out Hout)).
  exists located, (Qc_of_Z 51, Qc_of_Z 0).
  split; [reflexivity|]. split; [by vm_compute|]. split; [by vm_compute|].
  reflexivity.
Defined.

(** ** District aggregation: which districts are emitted *)

Lemma lookup_group_elem (k : string) (ms : list GeoRecord)
    (groups : list (string * list GeoRecord)) :
  lookup_group k groups = Some ms → (k, ms) ∈ groups.
Proof.
  induction groups as [|[k' ms'] groups IH]; simpl; [done|].
  destruct (decide (k' = k)) as [->|Hne].
  - intros [= ->]. apply list_elem_of_here.
  - intros H. apply list_elem_of_further. by apply IH.
Qed.

Lemma agg_nonempty (k : string) (ms : list GeoRecord) :
  ms ≠ [] → ∃ d, agg (k, ms) = Some d.
Proof. destruct ms as [|r ms]; [done|]. intros _. by eexists. Qed.

(** A district is emitted exactly when at least three records of the
    frame belong to it. *)
Theorem district_emitted_iff (df : list GeoRecord) (k : string) :
  (∃ d, d ∈ district_df df ∧ postcode_district d = k)
  ↔ (3 ≤ List.length (members_of k df))%nat.
Proof.
  split.
  - intros (d & Hin & <-). destruct (district_df_elem _ _ Hin) as [Hagg Hc].
    by destruct (agg_fields _ _ _ Hagg) as (_ & _ & <- & _).
  - intros Hlen. destruct (groupby_spec df) as [_ Hlook].
    assert (Hne : members_of k df ≠ []) by (intros E; rewrite E in Hlen; simpl in Hlen; lia).
    destruct (agg_nonempty k _ Hne) as [d Hagg].
    destruct (agg_fields _ _ _ Hagg) as (Hk & _ & Hcount & _).
    exists d. split; [|done]. unfold district_df.
    apply list_elem_of_filter. split; [lia|].
    apply list_elem_of_omap. exists (k, members_of k df). split; [|done].
    apply lookup_group_elem. rewrite Hlook.
    by destruct (members_of k df).
Qed.

Lemma agg_keys_Forall (Q : string → Prop) (groups : list (string * list GeoRecord)) :
  Forall (λ g, Q g.1) groups →
  Forall Q (postcode_district <$>
              filter (λ d, 3 ≤ property_count d)%nat (omap agg groups)).
Proof.
  induction 1 as [|[k ms] groups Hk _ IH]; [constructor|].
  cbn [omap list_omap]. destruct (agg (k, ms)) as [d|] eqn:Hagg; [|exact IH].
  rewrite filter_cons. destruct (decide (3 ≤ property_count d)%nat); [|exact IH].
  rewrite fmap_cons. constructor; [|exact IH].
  by destruct (agg_fields _ _ _ Hagg) as [-> _].
Qed.

(** The emitted districts come in strictly increasing order of their
    codes; in particular no district is emitted twice. *)
Theorem district_df_sorted (df : list GeoRecord) :
  StronglySorted key_lt (postcode_district <$> district_df df).
Proof.
  unfold district_df. destruct (groupby_spec df) as [Hsorted _].
  induction (groupby df) as [|[k ms] groups IH]; [constructor|].
  destruct Hsorted as [Habove Hsorted].
  cbn [omap list_omap]. destruct (agg (k, ms)) as [d|] eqn:Hagg; [|by apply IH].
  rewrite filter_cons. destruct (decide (3 ≤ property_count d)%nat); [|by apply IH].
  rewrite fmap_cons. constructor; [by apply IH|].
  destruct (agg_fields _ _ _ Hagg) as [-> _].
  apply Forall_forall. apply List.Forall_forall.
  by apply (agg_keys_Forall (key_lt k)).
Qed.

Lemma insert_group_total (k : string) (r : GeoRecord)
    (groups : list (string * list GeoRecord)) :
  sum_list ((λ g, List.length g.2) <$> insert_group k r groups)
  = S (sum_list ((λ g, List.length g.2) <$> groups)).
Proof.
  induction groups as [|[k' ms] groups IH]; [done|].
  cbn [insert_group]. destruct (String.compare k k'); cbn.
  - rewrite length_app. simpl. lia.
  - done.
  - cbn in IH. rewrite IH. lia.
Qed.

Lemma groupby_total (df : list GeoRecord) :
  (sum_list ((λ g, List.length g.2) <$> groupby df) ≤ List.length df)%nat.
Proof.
  induction df as [|r df IH] using rev_ind; [done|].
  rewrite groupby_snoc, length_app. simpl.
  destruct (district_of r); [rewrite insert_group_total|]; lia.
Qed.

Lemma agg_filter_total (groups : list (string * list GeoRecord)) :
  (sum_list (property_count <$>
               filter (λ d, 3 ≤ property_count d)%nat (omap agg groups))
   ≤ sum_list ((λ g, List.length g.2) <$> groups))%nat.
Proof.
  induction groups as [|[k ms] groups IH]; [done|].
  cbn [omap list_omap]. rewrite fmap_cons. cbn [sum_list sum_list_with snd].
  destruct (agg (k, ms)) as [d|] eqn:Hagg; [|cbn in *; lia].
  destruct (agg_fields _ _ _ Hagg) as (_ & _ & Hc & _).
  rewrite filter_cons. destruct (decide (3 ≤ property_count d)%nat).
  - rewrite fmap_cons. cbn in *. lia.
  - cbn in *. lia.
Qed.

(** The property counts of the emitted districts add up to no more than
    the number of records of the frame: no record is counted twice. *)
Theorem district_df_total_count (df : list GeoRecord) :
  (sum_list (property_count <$> district_df df) ≤ List.length df)%nat.
Proof.
  unfold district_df. etrans; [apply agg_filter_total|apply groupby_total].
Qed.

(** The area label of an emitted district is the label of the first
    record of the district in the order of the frame: later records with
    another label do not change it. *)
Theorem district_df_area_first_seen (df : list GeoRecord) (d : DistrictAggregate) :
  d ∈ district_df df →
  ∃ r rest,
    members_of (postcode_district d) df = r :: rest
    ∧ agg_area d = area (price_record r).
Proof.
  intros Hin. destruct (district_df_elem _ _ Hin) as [Hagg _].
  destruct (agg_fields _ _ _ Hagg) as (_ & _ & _ & _ & _ & Harea).
  destruct (members_of (postcode_district d) df) as [|r rest]; [done|].
  exists r, rest. split; [done|]. simpl in Harea. by injection Harea as <-.
Qed.

Lemma district_df_area_first_seen_witness :
  ∃ d, d ∈ district_df five_records
       ∧ ∃ r rest,
           members_of (postcode_district d) five_records = r :: rest
           ∧ agg_area d = area (price_record r).
Proof.
  assert (H : ∃ d, d ∈ district_df five_records).
  { destruct (district_df five_records) as [|d l] eqn:E;
      [vm_compute in E; discriminate|].
    exists d. apply list_elem_of_here. }
  destruct H as [d Hin].
  exists d. split; [exact Hin|].
  exact (district_df_area_first_seen five_records d Hin).
Defined.

(** ** geocode_dataframe: failures and repetition *)

Lemma dataset_coords_entry_Raise (d : postcode_dict) (v : pyval) (e : exn) :
  UKPostcodeDataset.coords_entry d v = Raise e →
  e = AttributeError ∧ ¬ str_or_none v.
Proof.
  unfold UKPostcodeDataset.coords_entry. destruct v as [| |s|q].
  - done.
  - intros [= <-]. split; [done|]. by intros [].
  - destruct (get_coordinates_total d s) as [r ->].
    unfold bind. by destruct r as [[??]|].
  - cbn [UKPostcodeDataset.get_coordinates].
    destruct (bool_decide (q = 0%Qc)); [done|].
    intros [= <-]. split; [done|]. by intros [].
Qed.

(** When geocode_dataframe raises, it is in one of three ways: KeyError
    for a missing postcode column and AttributeError for a postcode cell
    that is neither a string nor None, both leaving the dataframe as it
    was; or ZeroDivisionError on a dataframe without rows, after the
    columns lat and lon have been set. *)
Theorem geocode_dataframe_raises
    (d : postcode_dict) (df df' : DataFrame) (postcode_column : string) (e : exn) :
  geocode_dataframe d df postcode_column = (df', Raise e) →
  (e = KeyError ∧ df' = df
   ∧ column (columns df) postcode_column = Raise KeyError)
  ∨ (e = AttributeError ∧ df' = df
     ∧ ∃ postcodes v, column (columns df) postcode_column = Ok postcodes
                      ∧ v ∈ postcodes ∧ ¬ str_or_none v)
  ∨ (e = ZeroDivisionError ∧ nrows df = 0%nat
     ∧ ∃ lats lons, df' = setitem (setitem df "lat" lats) "lon" lons).
Proof.
  unfold geocode_dataframe.
  destruct (bool_decide (d = ∅)); [done|].
  destruct (column (columns df) postcode_column) as [postcodes|e0] eqn:Hcol.
  - destruct (mapM _ postcodes) as [cs|e1] eqn:Hm.
    + destruct (bool_decide (nrows df = 0%nat)) eqn:Hn; [|done].
      apply bool_decide_eq_true in Hn. intros [= <- <-].
      right. right. eauto.
    + intros [= <- <-]. right. left.
      destruct (mapM_Raise _ _ _ Hm) as (v & Hin & Hv).
      destruct (dataset_coords_entry_Raise _ _ _ Hv) as [-> Hns].
      eauto 10.
  - intros [= <- <-]. left.
    assert (e0 = KeyError) as ->; [|done].
    clear -Hcol. induction (columns df) as [|[n vals] cols IH]; simpl in Hcol.
    + by injection Hcol.
    + destruct (bool_decide (n = postcode_column)); [done|auto].
Qed.

Lemma geocode_dataframe_raises_witness :
  let d : postcode_dict := {[ "N2 9QL" := fallback ]} in
  let df := {| nrows := 0; columns := [("postcode", [])] |} in
  let df' := {| nrows := 0;
                columns := [("postcode", []); ("lat", []); ("lon", [])] |} in
  geocode_dataframe d df "postcode" = (df', Raise ZeroDivisionError)
  ∧ ((ZeroDivisionError = KeyError ∧ df' = df
      ∧ column (columns df) "postcode" = Raise KeyError)
     ∨ (ZeroDivisionError = AttributeError ∧ df' = df
        ∧ ∃ postcodes v, column (columns df) "postcode" = Ok postcodes
                         ∧ v ∈ postcodes ∧ ¬ str_or_none v)
     ∨ (ZeroDivisionError = ZeroDivisionError ∧ nrows df = 0%nat
        ∧ ∃ lats lons, df' = setitem (setitem df "lat" lats) "lon" lons)).
Proof.
  intros d df df'.
  assert (H : geocode_dataframe d df "postcode" = (df', Raise ZeroDivisionError))
    by (vm_compute; reflexivity).
  split; [exact H|]. exact (geocode_dataframe_raises d df df' "postcode" _ H).
Defined.

Lemma set_column_same (cols : list (string * list pyval)) (name : string)
    (vals : list pyval) :
  column cols name = Ok vals → set_column cols name vals = cols.
Proof.
  induction cols as [|[n old] cols IH]; simpl; [done|].
  destruct (bool_decide (n = name)) eqn:Hn.
  - by intros [= ->].
  - intros H. by rewrite IH.
Qed.

(** Geocoding a dataframe that geocode_dataframe has already returned
    changes nothing, as long as the postcodes are not themselves read
    from the column lat or lon. *)
Theorem geocode_dataframe_idempotent
    (d : postcode_dict) (df df1 : DataFrame) (postcode_column : string) :
  geocode_dataframe d df postcode_column = (df1, Ok tt) →
  postcode_column ≠ "lat" →
  postcode_column ≠ "lon" →
  geocode_dataframe d df1 postcode_column = (df1, Ok tt).
Proof.
  unfold geocode_dataframe. intros H Hlat Hlon.
  destruct (bool_decide (d = ∅)) eqn:Hd.
  { injection H as <-. reflexivity. }
  destruct (column (columns df) postcode_column) as [postcodes|e0] eqn:Hcol;
    [|done].
  destruct (mapM _ postcodes) as [cs|e1] eqn:Hm; [|done].
  destruct (bool_decide (nrows df = 0%nat)) eqn:Hn; [done|].
  injection H as <-. cbn [columns nrows setitem].
  rewrite !column_set_column_ne by done. rewrite Hcol, Hm, Hn.
  f_equal. unfold setitem. cbn [columns nrows]. f_equal.
  rewrite (set_column_same _ "lat").
  - apply set_column_same. apply column_set_column_eq.
  - rewrite column_set_column_ne by done. apply column_set_column_eq.
Qed.

Lemma geocode_dataframe_idempotent_witness :
  let d : postcode_dict := {[ "N2 9QL" := fallback ]} in
  let df := {| nrows := 2;
               columns := [("postcode", [PyStr "n29ql"; PyNone])] |} in
  let df1 := (geocode_dataframe d df "postcode").1 in
  geocode_dataframe d df "postcode" = (df1, Ok tt)
  ∧ "postcode" ≠ "lat" ∧ "postcode" ≠ "lon"
  ∧ geocode_dataframe d df1 "postcode" = (df1, Ok tt).
Proof.
  intros d df df1.
  assert (H : geocode_dataframe d df "postcode" = (df1, Ok tt))
    by (vm_compute; reflexivity).
  assert (H1 : "postcode" ≠ "lat") by discriminate.
  assert (H2 : "postcode" ≠ "lon") by discriminate.
  split; [exact H|]. split; [exact H1|]. split; [exact H2|].
  exact (geocode_dataframe_idempotent d df df1 "postcode" H H1 H2).
Defined.

(** ** Case and whitespace *)

Lemma isspace_upper_char (c : ascii) : Py.isspace (Py.upper_char c) = Py.isspace c.
Proof. destruct c as [[] [] [] [] [] [] [] []]; reflexivity. Qed.

Lemma upper_char_idem (c : ascii) : Py.upper_char (Py.upper_char c) = Py.upper_char c.
Proof. destruct c as [[] [] [] [] [] [] [] []]; reflexivity. Qed.

Lemma upper_char_space (c : ascii) :
  Ascii.eqb (Py.upper_char c) " " = Ascii.eqb c " ".
Proof. destruct c as [[] [] [] [] [] [] [] []]; reflexivity. Qed.

Lemma upper_upper (s : string) : Py.upper (Py.upper s) = Py.upper s.
Proof. induction s as [|c s IH]; simpl; [done|]. by rewrite upper_char_idem, IH. Qed.

Lemma lstrip_upper (s : string) : Py.lstrip (Py.upper s) = Py.upper (Py.lstrip s).
Proof.
  induction s as [|c s IH]; simpl; [done|].
  rewrite isspace_upper_char. by destruct (Py.isspace c).
Qed.

Lemma rstrip_upper (s : string) : Py.rstrip (Py.upper s) = Py.upper (Py.rstrip s).
Proof.
  induction s as [|c s IH]; simpl; [done|].
  rewrite IH, isspace_upper_char.
  destruct (Py.rstrip s) as [|a r]; simpl; [|done].
  by destruct (Py.isspace c).
Qed.

Lemma strip_upper (s : string) : Py.strip (Py.upper s) = Py.upper (Py.strip s).
Proof. unfold Py.strip. by rewrite rstrip_upper, lstrip_upper. Qed.

Lemma remove_spaces_upper (s : string) :
  Py.remove_spaces (Py.upper s) = Py.upper (Py.remove_spaces s).
Proof.
  induction s as [|c s IH]; simpl; [done|].
  rewrite upper_char_space, IH. by destruct (Ascii.eqb c " ").
Qed.

Lemma rstrip_cons_nonspace (c : ascii) (s : string) :
  Py.isspace c = false → Py.rstrip (String c s) = String c (Py.rstrip s).
Proof. intros Hc. simpl. rewrite Hc. by destruct (Py.rstrip s). Qed.

Lemma lstrip_rstrip (s : string) :
  Py.lstrip (Py.rstrip s) = Py.rstrip (Py.lstrip s).
Proof.
  induction s as [|c s IH]; [done|].
  destruct (Py.isspace c) eqn:Hc.
  - cbn [Py.lstrip]. rewrite Hc, <- IH. cbn [Py.rstrip]. rewrite Hc.
    destruct (Py.rstrip s) as [|a r]; [done|]. cbn [Py.lstrip]. by rewrite Hc.
  - cbn [Py.lstrip]. rewrite Hc. rewrite rstrip_cons_nonspace by done.
    cbn [Py.lstrip]. by rewrite Hc.
Qed.

Lemma lstrip_lstrip (s : string) : Py.lstrip (Py.lstrip s) = Py.lstrip s.
Proof.
  induction s as [|c s IH]; [done|]. cbn [Py.lstrip].
  destruct (Py.isspace c) eqn:Hc; [done|]. cbn [Py.lstrip]. by rewrite Hc.
Qed.

Lemma rstrip_rstrip (s : string) : Py.rstrip (Py.rstrip s) = Py.rstrip s.
Proof.
  induction s as [|c s IH]; [done|]. cbn [Py.rstrip].
  destruct (Py.rstrip s) as [|a r] eqn:Hr.
  - destruct (Py.isspace c) eqn:Hc; [done|]. cbn [Py.rstrip]. by rewrite Hc.
  - cbn [Py.rstrip]. cbn [Py.rstrip] in IH. rewrite IH. done.
Qed.

Lemma strip_strip (s : string) : Py.strip (Py.strip s) = Py.strip s.
Proof.
  unfold Py.strip.
  by rewrite <- (lstrip_rstrip (Py.rstrip s)), rstrip_rstrip, lstrip_lstrip.
Qed.

Lemma is_empty_upper (s : string) : Py.is_empty (Py.upper s) = Py.is_empty s.
Proof. by destruct s. Qed.

Lemma strip_empty_input (s : string) : Py.strip s ≠ "" → Py.is_empty s = false.
Proof. by destruct s. Qed.

Lemma clean_upper (s : string) : clean (Py.upper s) = clean s.
Proof. unfold clean. by rewrite strip_upper, upper_upper. Qed.

Lemma clean_strip (s : string) : clean (Py.strip s) = clean s.
Proof. unfold clean. by rewrite strip_strip. Qed.

(** The lookup does not depend on the letter case of the postcode. *)
Theorem get_coordinates_case_insensitive (d : postcode_dict) (s : string) :
  UKPostcodeDataset.get_coordinates d (PyStr (Py.upper s))
  = UKPostcodeDataset.get_coordinates d (PyStr s).
Proof. by rewrite !get_coordinates_PyStr, is_empty_upper, clean_upper. Qed.

(** Surrounding whitespace does not change the lookup of a postcode that
    has other characters. *)
Theorem get_coordinates_strip (d : postcode_dict) (s : string) :
  Py.strip s ≠ "" →
  UKPostcodeDataset.get_coordinates d (PyStr (Py.strip s))
  = UKPostcodeDataset.get_coordinates d (PyStr s).
Proof.
  intros Hs. rewrite !get_coordinates_PyStr, clean_strip.
  rewrite (strip_empty_input s Hs).
  by destruct (Py.strip s).
Qed.

Lemma get_coordinates_strip_witness :
  let d : postcode_dict := {[ "N2 9QL" := fallback ]} in
  Py.strip "  n2 9ql  " ≠ ""
  ∧ UKPostcodeDataset.get_coordinates d (PyStr (Py.strip "  n2 9ql  "))
    = UKPostcodeDataset.get_coordinates d (PyStr "  n2 9ql  ").
Proof.
  intros d.
  assert (H : Py.strip "  n2 9ql  " ≠ "") by (vm_compute; discriminate).
  split; [exact H|]. exact (get_coordinates_strip d _ H).
Defined.

(** A non-empty string of whitespace alone is not rejected like the
    empty string: it is normalized to the empty string, and the lookup
    returns whatever the mapping holds under the empty key. *)
Theorem get_coordinates_whitespace_only (d : postcode_dict) (s : string) :
  s ≠ "" → Py.strip s = "" →
  UKPostcodeDataset.get_coordinates d (PyStr s) = Ok (d !! "").
Proof.
  intros Hne Hs. rewrite get_coordinates_PyStr. unfold clean. rewrite Hs.
  destruct s; [done|]. cbn. by destruct (d !! "").
Qed.

Lemma get_coordinates_whitespace_only_witness :
  let d : postcode_dict := {[ "" := fallback ]} in
  "   " ≠ "" ∧ Py.strip "   " = ""
  ∧ UKPostcodeDataset.get_coordinates d (PyStr "   ") = Ok (d !! "")
  ∧ d !! "" = Some fallback
  ∧ UKPostcodeDataset.get_coordinates d (PyStr "") = Ok None.
Proof.
  intros d.
  assert (H1 : "   " ≠ "") by discriminate.
  assert (H2 : Py.strip "   " = "") by reflexivity.
  split; [exact H1|]. split; [exact H2|].
  split; [exact (get_coordinates_whitespace_only d _ H1 H2)|].
  split; reflexivity.
Defined.

(** ** Loading the mapping from postcodes.csv *)

Lemma fill_dict_step (row : csv_row) (rows : list csv_row) (d : postcode_dict) :
  row_loads row →
  fill_dict (row :: rows) d
  = fill_dict rows (match row_entry row with
                    | Some (k, c) => <[k := c]> d
                    | None => d
                    end).
Proof.
  unfold row_loads, str_postcode, row_entry. simpl.
  destruct (Postcode row); try by intros [[] _].
  by destruct (Latitude row), (Longitude row); intros [_ ?].
Qed.

Lemma fill_dict_lookup_gen (rows : list csv_row) (d : postcode_dict) (k : string) :
  Forall row_loads rows →
  (fill_dict rows d).2 = true
  ∧ (fill_dict rows d).1 !! k
    = match last_entry k rows with
      | Some c => Some c
      | None => d !! k
      end.
Proof.
  intros Hall. revert d. induction Hall as [|row rows Hrow _ IH]; intros d.
  - done.
  - rewrite fill_dict_step by done. destruct (IH (match row_entry row with
                    | Some (k, c) => <[k := c]> d
                    | None => d
                    end)) as [Hdone Hlook].
    split; [done|]. rewrite Hlook. cbn [last_entry].
    destruct (last_entry k rows) as [c|]; [done|].
    destruct (row_entry row) as [[k' c']|]; [|done].
    destruct (decide (k' = k)) as [->|Hne].
    + by rewrite lookup_insert_eq.
    + by rewrite lookup_insert_ne.
Qed.

(** When the body of the loop raises on no row of postcodes.csv (every
    Postcode cell is a string, and no row with both coordinate cells
    present holds one that float cannot convert), the loop completes, and
    the mapping it builds sends a key to the coordinates of the last row
    with that stripped, uppercased postcode and with both coordinates
    present: a later duplicate wins, and a row with a missing coordinate
    neither enters nor erases an entry. *)
Theorem fill_dict_last_wins (rows : list csv_row) (k : string) :
  Forall row_loads rows →
  (fill_dict rows ∅).2 = true
  ∧ (fill_dict rows ∅).1 !! k = last_entry k rows.
Proof.
  intros Hall. destruct (fill_dict_lookup_gen rows ∅ k Hall) as [H1 H2].
  split; [done|]. rewrite H2, lookup_empty. by destruct (last_entry k rows).
Qed.

Lemma fill_dict_last_wins_witness :
  let rows :=
    [ {| Postcode := PyStr "n2 9ql "; Latitude := Float (Qc_of_Z 1);
         Longitude := Float (Qc_of_Z 2) |};
      {| Postcode := PyStr "N2 9QL"; Latitude := Float (Qc_of_Z 3);
         Longitude := Float (Qc_of_Z 4) |};
      {| Postcode := PyStr "N2 9QL"; Latitude := Absent;
         Longitude := NotFloat |} ] in
  Forall row_loads rows
  ∧ (fill_dict rows ∅).2 = true
  ∧ (fill_dict rows ∅).1 !! "N2 9QL" = last_entry "N2 9QL" rows
  ∧ last_entry "N2 9QL" rows = Some (Qc_of_Z 3, Qc_of_Z 4).
Proof.
  intros rows.
  assert (H : Forall row_loads rows) by (repeat constructor).
  split; [exact H|].
  destruct (fill_dict_last_wins rows "N2 9QL" H) as [H1 H2].
  split; [exact H1|]. split; [exact H2|]. reflexivity.
Defined.

Lemma fill_dict_completed (rows : list csv_row) (d : postcode_dict) :
  (fill_dict rows d).2 = true ↔ Forall row_loads rows.
Proof.
  split.
  - revert d. induction rows as [|row rows IH]; intros d H; [constructor|].
    destruct (Postcode row) as [| |s|q] eqn:Hp; simpl in H; rewrite Hp in H;
      try done.
    destruct (Latitude row) as [|la|] eqn:Hla,
             (Longitude row) as [|lo|] eqn:Hlo; try done;
      (constructor;
         [unfold row_loads, str_postcode; by rewrite Hp, Hla, ?Hlo|eauto]).
  - intros Hall. by destruct (fill_dict_lookup_gen rows d "" Hall).
Qed.

(** load_postcode_data without a forced download reports success in
    exactly two cases: the cache file exists and can be unpickled; or
    postcodes.csv is there (already, or after a successful download), can
    be read, has the columns Postcode, Latitude and Longitude, holds no
    row on which the loop raises (a Postcode cell that is not a string,
    or a coordinate that float cannot convert in a row where both are
    present), and the cache file can be written. *)
Theorem load_postcode_data_succeeds_iff (env : environment) (d : postcode_dict) :
  (load_postcode_data env false d).2 = true
  ↔ (cache_exists env = true ∧ is_Some (cache_contents env))
    ∨ ((csv_exists env = true ∨ download_doogal_postcode_data env = true)
       ∧ ∃ f, read_csv env = Some f
              ∧ has_expected_cols f = true
              ∧ Forall row_loads (csv_rows f)
              ∧ cache_writable env = true).
Proof.
  assert (Hcsv : (load_from_csv env false d).2 = true
    ↔ (csv_exists env = true ∨ download_doogal_postcode_data env = true)
       ∧ ∃ f, read_csv env = Some f ∧ has_expected_cols f = true
              ∧ Forall row_loads (csv_rows f) ∧ cache_writable env = true).
  { unfold load_from_csv. rewrite orb_false_r.
    destruct (csv_exists env), (download_doogal_postcode_data env); simpl;
      try (split; [done|by intros [[?|?] _]]);
      (destruct (read_csv env) as [f|];
         [|split; [done|by intros (_ & f & ? & _)]];
       destruct (has_expected_cols f) eqn:Hcols;
         [|split; [done|intros (_ & f' & [= <-] & ? & _); congruence]];
       pose proof (fill_dict_completed (csv_rows f) ∅) as Hfill;
       destruct (fill_dict (csv_rows f) ∅) as [d' completed];
       simpl in Hfill; destruct completed; simpl;
         [split;
            [intros Hw; split; [auto|];
             exists f; repeat split; try done; by apply Hfill
            |by intros (_ & f' & [= <-] & _ & _ & ?)]
         |split; [done|intros (_ & f' & [= <-] & _ & Hall & _);
                        apply Hfill in Hall; done]]). }
  unfold load_postcode_data. rewrite andb_true_r.
  destruct (cache_exists env) eqn:Hc.
  - destruct (cache_contents env) as [cached|] eqn:Hcc.
    + simpl. split; [eauto|done].
    + rewrite Hcsv. split; [auto|]. intros [[_ [? ?]]|H]; [done|exact H].
  - rewrite Hcsv. split; [auto|]. intros [[? _]|H]; [done|exact H].
Qed.

Lemma fill_dict_keys_gen (rows : list csv_row) (d : postcode_dict) :
  (∀ k, is_Some (d !! k) → Py.upper k = k ∧ Py.strip k = k) →
  ∀ k, is_Some ((fill_dict rows d).1 !! k) → Py.upper k = k ∧ Py.strip k = k.
Proof.
  revert d. induction rows as [|row rows IH]; intros d Hd; [exact Hd|].
  simpl. destruct (Postcode row) as [| |s|q]; try exact Hd.
  destruct (Latitude row) as [|la|], (Longitude row) as [|lo|];
    try (by apply IH); try exact Hd.
  apply IH. intros k Hk.
  destruct (decide (Py.upper (Py.strip s) = k)) as [<-|Hne].
  - split; [apply upper_upper|]. by rewrite strip_upper, strip_strip.
  - rewrite lookup_insert_ne in Hk by done. by apply Hd.
Qed.

(** Every key of a mapping built from postcodes.csv is in stored form:
    uppercase and without surrounding whitespace, also when the loop
    stopped on a bad row. *)
Theorem fill_dict_keys_normalized (rows : list csv_row) (k : string) :
  is_Some ((fill_dict rows ∅).1 !! k) → Py.upper k = k ∧ Py.strip k = k.
Proof.
  apply fill_dict_keys_gen. intros k' Hk'. rewrite lookup_empty in Hk'.
  by destruct Hk'.
Qed.

Lemma fill_dict_keys_normalized_witness :
  let rows := [ {| Postcode := PyStr " sw1a 1aa"; Latitude := Float (Qc_of_Z 1);
                   Longitude := Float (Qc_of_Z 2) |};
                {| Postcode := PyStr "n2 9ql"; Latitude := NotFloat;
                   Longitude := Float (Qc_of_Z 2) |} ] in
  is_Some ((fill_dict rows ∅).1 !! "SW1A 1AA")
  ∧ Py.upper "SW1A 1AA" = "SW1A 1AA" ∧ Py.strip "SW1A 1AA" = "SW1A 1AA".
Proof.
  intros rows.
  assert (H : is_Some ((fill_dict rows ∅).1 !! "SW1A 1AA"))
    by (eexists; vm_compute; reflexivity).
  split; [exact H|]. exact (fill_dict_keys_normalized rows _ H).
Defined.




(** ** extract_postcode_district: shape and stability of the key *)

Lemma extract_postcode_district_PyStr (s : string) :
  extract_postcode_district (PyStr s)
  = first_word (Py.upper (Py.strip s)) ≫= outward_prefix.
Proof.
  unfold extract_postcode_district. rewrite <- split_head.
  destruct s as [|c s]; [reflexivity|]. cbn [Py.is_empty].
  destruct (Py.split _) as [|district parts]; [reflexivity|].
  cbn [head mbind option_bind]. apply match_district_pattern.
Qed.

(** The district code is read from the stripped, uppercased postcode, so
    neither letter case nor surrounding whitespace changes it. *)
Theorem extract_postcode_district_case_whitespace (s : string) :
  extract_postcode_district (PyStr (Py.upper (Py.strip s)))
  = extract_postcode_district (PyStr s).
Proof.
  rewrite !extract_postcode_district_PyStr.
  by rewrite strip_upper, strip_strip, upper_upper.
Qed.

Lemma take_add (a b : nat) (s : string) :
  Re.take (a + b) s = Re.take a s +:+ Re.take b (Re.drop a s).
Proof.
  revert s. induction a as [|a IH]; intros s; [done|].
  destruct s as [|c s]; [by destruct b|].
  cbn [Nat.add Re.take Re.drop]. by rewrite append_cons, IH.
Qed.

Lemma take_count_prefix (p : ascii → bool) (k : nat) (s : string) :
  (k ≤ Re.count_prefix p s)%nat →
  all_chars p (Re.take k s) = true ∧ Py.len (Re.take k s) = k.
Proof.
  revert s. induction k as [|k IH]; intros s Hk; [done|].
  destruct s as [|c s]; simpl in Hk; [lia|].
  destruct (p c) eqn:Hc; [|lia].
  destruct (IH s ltac:(lia)) as [Hall Hlen].
  cbn [Re.take all_chars Py.len String.length]. rewrite Hc, Hall.
  unfold Py.len in Hlen. by rewrite Hlen.
Qed.

(** The parts of a district code: one or two letters, one or two digits,
    and at most one more letter. *)
Lemma outward_prefix_parts (w d : string) :
  outward_prefix w = Some d →
  ∃ L D O, d = (L +:+ D) +:+ O
    ∧ all_chars Py.is_upper L = true ∧ (1 ≤ Py.len L ≤ 2)%nat
    ∧ all_chars Py.is_digit D = true ∧ (1 ≤ Py.len D ≤ 2)%nat
    ∧ all_chars Py.is_upper O = true ∧ (Py.len O ≤ 1)%nat.
Proof.
  unfold outward_prefix.
  set (nl := Re.count_prefix Py.is_upper w).
  set (nd := Re.count_prefix Py.is_digit (Re.drop nl w)).
  set (no := Nat.min 1 (Re.count_prefix Py.is_upper
                          (Re.drop (nl + Nat.min 2 nd) w))).
  destruct ((1 <=? nl)%nat && (nl <=? 2)%nat && (1 <=? nd)%nat) eqn:Hc; [|done].
  apply andb_prop in Hc as [Hc Hnd]. apply andb_prop in Hc as [Hl1 Hl2].
  apply Nat.leb_le in Hnd, Hl1, Hl2.
  intros [= <-]. rewrite !take_add.
  destruct (take_count_prefix Py.is_upper nl w) as [HL1 HL2]; [done|].
  destruct (take_count_prefix Py.is_digit (Nat.min 2 nd) (Re.drop nl w))
    as [HD1 HD2]; [fold nd; lia|].
  destruct (take_count_prefix Py.is_upper no (Re.drop (nl + Nat.min 2 nd) w))
    as [HO1 HO2]; [subst no; lia|].
  exists (Re.take nl w), (Re.take (Nat.min 2 nd) (Re.drop nl w)),
    (Re.take no (Re.drop (nl + Nat.min 2 nd) w)).
  split; [reflexivity|]. split; [exact HL1|]. split; [rewrite HL2; lia|].
  split; [exact HD1|]. split; [rewrite HD2; lia|].
  split; [exact HO1|]. rewrite HO2. subst no. lia.
Qed.

Lemma upper_class (c : ascii) :
  Py.is_upper c = true →
  Py.isspace c = false ∧ Py.upper_char c = c ∧ Py.is_digit c = false.
Proof. destruct c as [[] [] [] [] [] [] [] []]; cbv; intros; by repeat split. Qed.

Lemma digit_class (c : ascii) :
  Py.is_digit c = true →
  Py.isspace c = false ∧ Py.upper_char c = c ∧ Py.is_upper c = false.
Proof. destruct c as [[] [] [] [] [] [] [] []]; cbv; intros; by repeat split. Qed.

(** A district code passes through extract_postcode_district unchanged,
    it has between 2 and 5 characters, all of them capital letters or
    digits, and it begins with a letter. *)
Lemma outward_prefix_fixed (w d : string) :
  outward_prefix w = Some d →
  Py.strip d = d ∧ Py.upper d = d ∧ first_word d = Some d
  ∧ outward_prefix d = Some d
  ∧ (2 ≤ Py.len d ≤ 5)%nat
  ∧ all_chars (λ c, Py.is_upper c || Py.is_digit c) d = true
  ∧ ∃ a rest, d = String a rest ∧ Py.is_upper a = true.
Proof.
  intros Hw.
  destruct (outward_prefix_parts _ _ Hw)
    as (L & D & O & -> & HL & HLn & HD & HDn & HO & HOn).
  clear Hw.
  destruct L as [|a [|b [|? ?]]]; simpl in HLn; try lia;
  destruct D as [|x [|y [|? ?]]]; simpl in HDn; try lia;
  destruct O as [|o [|? ?]]; simpl in HOn; try lia;
  cbn [all_chars] in HL, HD, HO;
  repeat match goal with
         | H : _ && _ = true |- _ => apply andb_prop in H as [? ?]
         end;
  repeat match goal with
         | H : Py.is_upper ?c = true |- _ =>
             let H1 := fresh in let H2 := fresh in let H3 := fresh in
             destruct (upper_class c H) as (H1 & H2 & H3); revert H
         | H : Py.is_digit ?c = true |- _ =>
             let H1 := fresh in let H2 := fresh in let H3 := fresh in
             destruct (digit_class c H) as (H1 & H2 & H3); revert H
         end; intros;
  cbv [String.append];
  unfold Py.strip, outward_prefix;
  cbn [String.append Py.rstrip Py.lstrip Py.upper first_word Re.count_prefix
       Re.take Re.drop all_chars Py.len String.length negb];
  repeat match goal with
         | H : _ = _ |- _ => rewrite H
         end;
  cbn [String.append Py.rstrip Py.lstrip Py.upper first_word Re.count_prefix
       Re.take Re.drop all_chars Py.len String.length negb orb andb
       Nat.leb Nat.min Nat.add];
  repeat match goal with
         | H : _ = _ |- _ => rewrite H
         end;
  cbn [Re.take Re.drop Re.count_prefix Nat.min Nat.add andb orb negb];
  repeat match goal with
         | H : _ = _ |- _ => rewrite H
         end;
  (repeat split; try done; try lia; eauto).
Qed.

(** extract_postcode_district is idempotent: the district code it
    returns is its own district code. *)
Theorem extract_postcode_district_idempotent (postcode : pyval) (d : string) :
  extract_postcode_district postcode = Some d →
  extract_postcode_district (PyStr d) = Some d.
Proof.
  destruct postcode as [| |s|q]; try done.
  rewrite !extract_postcode_district_PyStr.
  destruct (first_word (Py.upper (Py.strip s))) as [w|]; [|done].
  cbn [mbind option_bind]. intros Hw.
  destruct (outward_prefix_fixed _ _ Hw) as (-> & -> & -> & Hd & _).
  exact Hd.
Qed.

Lemma extract_postcode_district_idempotent_witness :
  extract_postcode_district (PyStr " sw1a 1aa") = Some "SW1A"
  ∧ extract_postcode_district (PyStr "SW1A") = Some "SW1A".
Proof.
  assert (H : extract_postcode_district (PyStr " sw1a 1aa") = Some "SW1A")
    by reflexivity.
  split; [exact H|]. exact (extract_postcode_district_idempotent _ _ H).
Defined.

(** A district code has between 2 and 5 characters, all of them capital
    letters or digits, the first one a letter. *)
Theorem extract_postcode_district_shape (postcode : pyval) (d : string) :
  extract_postcode_district postcode = Some d →
  (2 ≤ Py.len d ≤ 5)%nat
  ∧ all_chars (λ c, Py.is_upper c || Py.is_digit c) d = true
  ∧ ∃ a rest, d = String a rest ∧ Py.is_upper a = true.
Proof.
  destruct postcode as [| |s|q]; try done.
  rewrite extract_postcode_district_PyStr.
  destruct (first_word (Py.upper (Py.strip s))) as [w|]; [|done].
  cbn [mbind option_bind]. intros Hw.
  by destruct (outward_prefix_fixed _ _ Hw) as (_ & _ & _ & _ & ? & ? & ?).
Qed.

Lemma extract_postcode_district_shape_witness :
  extract_postcode_district (PyStr "ec1a 1bb") = Some "EC1A"
  ∧ (2 ≤ Py.len "EC1A" ≤ 5)%nat
  ∧ all_chars (λ c, Py.is_upper c || Py.is_digit c) "EC1A" = true
  ∧ ∃ a rest, "EC1A" = String a rest ∧ Py.is_upper a = true.
Proof.
  assert (H : extract_postcode_district (PyStr "ec1a 1bb") = Some "EC1A")
    by reflexivity.
  split; [exact H|]. exact (extract_postcode_district_shape _ _ H).
Defined.

(** ** Means and the dashboard view *)

Local Open Scope Qc_scope.

Lemma Qc_of_nat_S (n : nat) : Qc_of_nat (S n) = 1 + Qc_of_nat n.
Proof.
  unfold Qc_of_nat. rewrite Nat2Z.inj_succ, <- Z.add_1_l, Z2Qc_inj_add.
  by rewrite Z2Qc_inj_1.
Qed.

Lemma Qc_of_nat_0 : Qc_of_nat 0 = 0.
Proof. exact Z2Qc_inj_0. Qed.

Lemma Qc_of_nat_pos (n : nat) : (0 < n)%nat → 0 < Qc_of_nat n.
Proof.
  intros Hn. unfold Qc_of_nat. rewrite <- Z2Qc_inj_0.
  apply (proj1 (Z2Qc_inj_lt _ _)). lia.
Qed.

Lemma Qcdiv_mult_cancel (x y : Qc) : y ≠ 0 → x / y * y = x.
Proof. intros Hy. by rewrite Qcmult_comm, Qcmult_div_r. Qed.

Lemma Qcplus_lt_compat (a b c e : Qc) : a < b → c < e → a + c < b + e.
Proof.
  intros Hab Hce. apply Qclt_trans with (b + c).
  - by apply (proj1 (Qcplus_lt_mono_r _ _ _)).
  - by apply (proj1 (Qcplus_lt_mono_l _ _ _)).
Qed.

Lemma sum_le_upper (hi : Qc) (xs : list Qc) :
  Forall (λ x, x ≤ hi) xs → sum xs ≤ Qc_of_nat (List.length xs) * hi.
Proof.
  induction 1 as [|x xs Hx _ IH].
  - cbn [sum foldr List.length]. rewrite Qc_of_nat_0, Qcmult_0_l.
    apply Qcle_refl.
  - cbn [sum foldr List.length]. rewrite Qc_of_nat_S, Qcmult_plus_distr_l,
      Qcmult_1_l. by apply Qcplus_le_compat.
Qed.

Lemma sum_le_lower (lo : Qc) (xs : list Qc) :
  Forall (λ x, lo ≤ x) xs → Qc_of_nat (List.length xs) * lo ≤ sum xs.
Proof.
  induction 1 as [|x xs Hx _ IH].
  - cbn [sum foldr List.length]. rewrite Qc_of_nat_0, Qcmult_0_l.
    apply Qcle_refl.
  - cbn [sum foldr List.length]. rewrite Qc_of_nat_S, Qcmult_plus_distr_l,
      Qcmult_1_l. by apply Qcplus_le_compat.
Qed.

Lemma sum_lt_upper (hi : Qc) (xs : list Qc) :
  xs ≠ [] → Forall (λ x, x < hi) xs → sum xs < Qc_of_nat (List.length xs) * hi.
Proof.
  intros Hne Hall. induction Hall as [|x xs Hx Hxs IH]; [done|].
  cbn [sum foldr List.length]. rewrite Qc_of_nat_S, Qcmult_plus_distr_l,
    Qcmult_1_l.
  destruct xs as [|y ys].
  - cbn [sum foldr List.length]. rewrite Qc_of_nat_0, Qcmult_0_l.
    by apply (proj1 (Qcplus_lt_mono_r _ _ _)).
  - apply Qcplus_lt_compat; [done|]. by apply IH.
Qed.

Lemma sum_lt_lower (lo : Qc) (xs : list Qc) :
  xs ≠ [] → Forall (λ x, lo < x) xs → Qc_of_nat (List.length xs) * lo < sum xs.
Proof.
  intros Hne Hall. induction Hall as [|x xs Hx Hxs IH]; [done|].
  cbn [sum foldr List.length]. rewrite Qc_of_nat_S, Qcmult_plus_distr_l,
    Qcmult_1_l.
  destruct xs as [|y ys].
  - cbn [sum foldr List.length]. rewrite Qc_of_nat_0, Qcmult_0_l.
    by apply (proj1 (Qcplus_lt_mono_r _ _ _)).
  - apply Qcplus_lt_compat; [done|]. by apply IH.
Qed.

(** The mean of values between two bounds lies between them. *)
Lemma mean_between (lo hi m : Qc) (xs : list Qc) :
  mean xs = Some m → Forall (λ x, lo ≤ x ∧ x ≤ hi) xs → lo ≤ m ∧ m ≤ hi.
Proof.
  intros Hm Hall. apply mean_Some in Hm as [Hne ->].
  assert (Hn : 0 < Qc_of_nat (List.length xs)).
  { apply Qc_of_nat_pos. destruct xs; [done|simpl; lia]. }
  assert (Hn0 : Qc_of_nat (List.length xs) ≠ 0).
  { intros E. rewrite E in Hn. by apply Qclt_not_eq in Hn. }
  split.
  - apply (proj2 (Qcmult_le_mono_pos_r _ _ _ Hn)). rewrite Qcdiv_mult_cancel by done.
    rewrite Qcmult_comm. apply sum_le_lower.
    eapply List.Forall_impl; [|exact Hall]. by intros x [? ?].
  - apply (proj2 (Qcmult_le_mono_pos_r _ _ _ Hn)). rewrite Qcdiv_mult_cancel by done.
    rewrite (Qcmult_comm hi). apply sum_le_upper.
    eapply List.Forall_impl; [|exact Hall]. by intros x [? ?].
Qed.

Lemma mean_strictly_between (lo hi m : Qc) (xs : list Qc) :
  mean xs = Some m → Forall (λ x, lo < x ∧ x < hi) xs → lo < m ∧ m < hi.
Proof.
  intros Hm Hall. apply mean_Some in Hm as [Hne ->].
  assert (Hn : 0 < Qc_of_nat (List.length xs)).
  { apply Qc_of_nat_pos. destruct xs; [done|simpl; lia]. }
  assert (Hn0 : Qc_of_nat (List.length xs) ≠ 0).
  { intros E. rewrite E in Hn. by apply Qclt_not_eq in Hn. }
  split.
  - apply (proj2 (Qcmult_lt_mono_pos_r _ _ _ Hn)). rewrite Qcdiv_mult_cancel by done.
    rewrite Qcmult_comm. apply sum_lt_lower; [done|].
    eapply List.Forall_impl; [|exact Hall]. by intros x [? ?].
  - apply (proj2 (Qcmult_lt_mono_pos_r _ _ _ Hn)). rewrite Qcdiv_mult_cancel by done.
    rewrite (Qcmult_comm hi). apply sum_lt_upper; [done|].
    eapply List.Forall_impl; [|exact Hall]. by intros x [? ?].
Qed.

(** The price mean of an emitted district, given a property that all
    records of the frame have. *)
Lemma district_df_prices (P : Qc → Prop) (df : list GeoRecord)
    (d : DistrictAggregate) :
  Forall (λ r, P (priceper (price_record r))) df →
  d ∈ district_df df →
  ∃ prices, mean prices = Some (avg_price d) ∧ Forall P prices.
Proof.
  intros Hall Hin. destruct (district_df_elem _ _ Hin) as [Hagg _].
  destruct (agg_fields _ _ _ Hagg) as (_ & Hmean & _).
  eexists. split; [exact Hmean|].
  apply Forall_fmap. unfold members_of.
  rewrite list.Forall_forall in Hall. apply list.Forall_forall.
  intros r Hr. apply list_elem_of_filter in Hr as [_ Hr]. by apply Hall.
Qed.

Lemma filter_df_elem (price_range : Qc * Qc) (selected_area : string)
    (df : list GeoRecord) (r : GeoRecord) :
  r ∈ filter_df price_range selected_area df →
  r ∈ df
  ∧ (price_range.1 ≤ priceper (price_record r)
     ∧ priceper (price_record r) ≤ price_range.2)
  ∧ (selected_area ≠ "all"%string → area (price_record r) = selected_area).
Proof.
  unfold filter_df. case_bool_decide as Harea.
  - intros [Ha [Hp Hr]%list_elem_of_filter]%list_elem_of_filter. done.
  - intros [Hp Hr]%list_elem_of_filter. done.
Qed.

Lemma filter_df_length (price_range : Qc * Qc) (selected_area : string)
    (df : list GeoRecord) :
  (List.length (filter_df price_range selected_area df) ≤ List.length df)%nat.
Proof.
  unfold filter_df. case_bool_decide.
  - etrans; apply length_filter.
  - apply length_filter.
Qed.

Lemma update_dashboard_Some (price_range : Qc * Qc) (selected_area : string)
    (df : list GeoRecord) (view : dashboard_view) :
  update_dashboard price_range selected_area df = Some view →
  view_districts view = district_df (filter_df price_range selected_area df)
  ∧ view_sizes view = (λ d, marker_size (property_count d)) <$> view_districts view
  ∧ total_properties view = List.length (filter_df price_range selected_area df)
  ∧ districts_shown view = List.length (view_districts view)
  ∧ filter_df price_range selected_area df ≠ [].
Proof.
  unfold update_dashboard.
  destruct (filter_df price_range selected_area df) as [|r rows]; [done|].
  intros [= <-]. done.
Qed.

Lemma head_fmap_elem {A B : Type} (f : A → B) (l : list A) (b : B) :
  head (f <$> l) = Some b → ∃ a, a ∈ l ∧ f a = b.
Proof.
  destruct l as [|a l]; [done|]. intros [= <-]. exists a.
  split; [apply list_elem_of_here|done].
Qed.

(** Every district the dashboard shows respects the two filters:
    its average price lies within the price range of the slider, and,
    when an area other than 'all' is selected, its area label is that
    area. *)
Theorem update_dashboard_respects_filters (price_range : Qc * Qc)
    (selected_area : string) (df : list GeoRecord) (view : dashboard_view)
    (d : DistrictAggregate) :
  update_dashboard price_range selected_area df = Some view →
  d ∈ view_districts view →
  (price_range.1 ≤ avg_price d ∧ avg_price d ≤ price_range.2)
  ∧ (selected_area ≠ "all"%string → agg_area d = selected_area).
Proof.
  intros Hview Hd.
  destruct (update_dashboard_Some _ _ _ _ Hview) as (Hdist & _).
  rewrite Hdist in Hd. split.
  - assert (Hall : Forall (λ r, price_range.1 ≤ priceper (price_record r)
                                ∧ priceper (price_record r) ≤ price_range.2)
                         (filter_df price_range selected_area df)).
    { apply list.Forall_forall. intros r Hr.
      by destruct (filter_df_elem _ _ _ _ Hr) as (_ & ? & _). }
    destruct (district_df_prices
                (λ x, price_range.1 ≤ x ∧ x ≤ price_range.2) _ _ Hall Hd)
      as (prices & Hmean & Hin).
    by apply (mean_between _ _ _ prices).
  - intros Harea. destruct (district_df_elem _ _ Hd) as [Hagg _].
    destruct (agg_fields _ _ _ Hagg) as (_ & _ & _ & _ & _ & Hfirst).
    apply head_fmap_elem in Hfirst as (r & Hr & <-).
    apply list_elem_of_filter in Hr as [_ Hr].
    destruct (filter_df_elem _ _ _ _ Hr) as (_ & _ & Ha). by apply Ha.
Qed.

Lemma sum_list_at_least (k : nat) (l : list nat) :
  Forall (λ n, k ≤ n)%nat l → (k * List.length l ≤ sum_list l)%nat.
Proof. induction 1; simpl; lia. Qed.

Lemma district_df_length (df : list GeoRecord) :
  (3 * List.length (district_df df) ≤ List.length df)%nat.
Proof.
  etrans; [|etrans; [apply agg_filter_total|apply groupby_total]].
  fold (district_df df).
  rewrite <- (length_fmap property_count). apply sum_list_at_least.
  apply Forall_fmap, list.Forall_forall. intros d Hd.
  by destruct (district_df_elem _ _ Hd) as [_ ?].
Qed.

(** The two counts of the dashboard summary: the districts shown
    are at most a third of the properties that pass the filters, which
    are at most the records loaded; each district has one marker size. *)
Theorem update_dashboard_summary_counts (price_range : Qc * Qc)
    (selected_area : string) (df : list GeoRecord) (view : dashboard_view) :
  update_dashboard price_range selected_area df = Some view →
  (3 * districts_shown view ≤ total_properties view)%nat
  ∧ (0 < total_properties view ≤ List.length df)%nat
  ∧ List.length (view_sizes view) = districts_shown view.
Proof.
  intros Hview.
  destruct (update_dashboard_Some _ _ _ _ Hview)
    as (Hdist & Hsizes & Htotal & Hshown & Hne).
  rewrite Hshown, Htotal, Hsizes, Hdist, length_fmap.
  split; [apply district_df_length|]. split; [|done]. split.
  - destruct (filter_df price_range selected_area df); [done|simpl; lia].
  - apply filter_df_length.
Qed.

Lemma update_dashboard_respects_filters_witness :
  let price_range := (Qc_of_Z 2000, Qc_of_Z 6000) in
  ∃ view d,
    update_dashboard price_range "Barnet" six_records = Some view
    ∧ d ∈ view_districts view
    ∧ (price_range.1 ≤ avg_price d ∧ avg_price d ≤ price_range.2)
    ∧ ("Barnet" ≠ "all" → agg_area d = "Barnet").
Proof.
  intros price_range.
  assert (H : ∃ view, update_dashboard price_range "Barnet" six_records = Some view
                      ∧ ∃ d, d ∈ view_districts view).
  { destruct (update_dashboard price_range "Barnet" six_records)
      as [view|] eqn:E; [|vm_compute in E; discriminate].
    exists view. split; [reflexivity|].
    destruct (view_districts view) as [|d l] eqn:E'.
    - vm_compute in E. injection E as <-. vm_compute in E'. discriminate.
    - exists d. apply list_elem_of_here. }
  destruct H as (view & Hview & d & Hd).
  exists view, d. split; [exact Hview|]. split; [exact Hd|].
  exact (update_dashboard_respects_filters price_range "Barnet" six_records
           view d Hview Hd).
Defined.

Lemma update_dashboard_summary_counts_witness :
  let price_range := (Qc_of_Z 2000, Qc_of_Z 6000) in
  ∃ view,
    update_dashboard price_range "all" six_records = Some view
    ∧ (3 * districts_shown view ≤ total_properties view)%nat
    ∧ (0 < total_properties view ≤ List.length six_records)%nat
    ∧ List.length (view_sizes view) = districts_shown view.
Proof.
  intros price_range.
  assert (H : ∃ view, update_dashboard price_range "all" six_records = Some view).
  { destruct (update_dashboard price_range "all" six_records)
      as [view|] eqn:E; [|vm_compute in E; discriminate].
    by exists view. }
  destruct H as (view & Hview).
  exists view. split; [exact Hview|].
  exact (update_dashboard_summary_counts price_range "all" six_records
           view Hview).
Defined.

(** ** Marker sizes and heat-map points *)

Lemma Qc_of_Z_pos (k : Z) : (0 < k)%Z → 0 < Qc_of_Z k.
Proof. intros Hk. rewrite <- Z2Qc_inj_0. by apply (proj1 (Z2Qc_inj_lt _ _)). Qed.

Lemma Qc_of_Z_nonzero (k : Z) : (0 < k)%Z → Qc_of_Z k ≠ 0.
Proof.
  intros Hk E. apply Qc_of_Z_pos in Hk. rewrite E in Hk.
  by apply Qclt_not_eq in Hk.
Qed.

(** Comparing [x / k + b] with an integer [t], for integers [x], [b] and
    a positive integer [k]. *)
Lemma div_plus_gt (x k b t : Z) :
  (0 < k)%Z →
  Qc_of_Z t < Qc_of_Z x / Qc_of_Z k + Qc_of_Z b ↔ ((t - b) * k < x)%Z.
Proof.
  intros Hk.
  replace t with ((t - b) + b)%Z at 1 by lia.
  rewrite Z2Qc_inj_add, <- Qcplus_lt_mono_r.
  rewrite (Qcmult_lt_mono_pos_r _ _ _ (Qc_of_Z_pos k Hk)).
  rewrite Qcdiv_mult_cancel by by apply Qc_of_Z_nonzero.
  by rewrite <- Z2Qc_inj_mul, <- Z2Qc_inj_lt.
Qed.

Lemma div_plus_lt (x k b t : Z) :
  (0 < k)%Z →
  Qc_of_Z x / Qc_of_Z k + Qc_of_Z b < Qc_of_Z t ↔ (x < (t - b) * k)%Z.
Proof.
  intros Hk.
  replace t with ((t - b) + b)%Z at 1 by lia.
  rewrite Z2Qc_inj_add, <- Qcplus_lt_mono_r.
  rewrite (Qcmult_lt_mono_pos_r _ _ _ (Qc_of_Z_pos k Hk)).
  rewrite Qcdiv_mult_cancel by by apply Qc_of_Z_nonzero.
  by rewrite <- Z2Qc_inj_mul, <- Z2Qc_inj_lt.
Qed.

Lemma div_plus_ge (x k b t : Z) :
  (0 < k)%Z →
  Qc_of_Z t ≤ Qc_of_Z x / Qc_of_Z k + Qc_of_Z b ↔ ((t - b) * k ≤ x)%Z.
Proof. intros Hk. rewrite Qcle_ngt, div_plus_lt by done. lia. Qed.

Lemma div_plus_le (x k b t : Z) :
  (0 < k)%Z →
  Qc_of_Z x / Qc_of_Z k + Qc_of_Z b ≤ Qc_of_Z t ↔ (x ≤ (t - b) * k)%Z.
Proof. intros Hk. rewrite Qcle_ngt, div_plus_gt by done. lia. Qed.

(** [min(max(n/2 + b, b), hi)] for a count [n]: the value grows by a half
    per unit from [b] and stays at [hi] from [2 * (hi - b)] on. *)
Lemma clamp_half (n : nat) (b hi : Z) :
  (b ≤ hi)%Z →
  let size := Py.min (Py.max (Qc_of_nat n / Qc_of_Z 2 + Qc_of_Z b) (Qc_of_Z b))
                     (Qc_of_Z hi) in
  size = (if decide (Z.of_nat n < 2 * (hi - b))%Z
          then Qc_of_nat n / Qc_of_Z 2 + Qc_of_Z b else Qc_of_Z hi)
  ∧ Qc_of_Z b ≤ size ∧ size ≤ Qc_of_Z hi.
Proof.
  intros Hb size. subst size. unfold Py.max, Py.min, Qc_of_nat.
  assert (Hlow : Qc_of_Z b ≤ Qc_of_Z (Z.of_nat n) / Qc_of_Z 2 + Qc_of_Z b).
  { apply div_plus_ge; lia. }
  destruct (Qclt_le_dec _ (Qc_of_Z b)) as [Hlt|_].
  { by apply Qclt_nge in Hlt. }
  destruct (Qclt_le_dec (Qc_of_Z hi) _) as [Hhi|Hhi].
  - apply div_plus_gt in Hhi; [|lia].
    rewrite decide_False by lia.
    split; [done|]. split; [by apply (proj1 (Z2Qc_inj_le _ _))|apply Qcle_refl].
  - split; [|done].
    pose proof Hhi as Hhi'. apply div_plus_le in Hhi'; [|lia].
    destruct (decide (Z.of_nat n < 2 * (hi - b))%Z) as [|Hge]; [done|].
    apply Qcle_antisym; [done|]. apply div_plus_ge; lia.
Qed.

(** The marker size of a district on the dashboard map is
    [count/2 + 8] below 24 properties and 20 from 24 on; the marker
    radius on the generated map is [count/2 + 5] below 20 properties and
    15 from 20 on.  Sizes stay within 8..20, radii within 5..15. *)
Theorem marker_sizes_clamped (property_count : nat) :
  (marker_size property_count
   = (if decide (property_count < 24)%nat
      then Qc_of_nat property_count / Qc_of_Z 2 + Qc_of_Z 8 else Qc_of_Z 20)
   ∧ Qc_of_Z 8 ≤ marker_size property_count
   ∧ marker_size property_count ≤ Qc_of_Z 20)
  ∧ (marker_radius property_count
     = (if decide (property_count < 20)%nat
        then Qc_of_nat property_count / Qc_of_Z 2 + Qc_of_Z 5 else Qc_of_Z 15)
     ∧ Qc_of_Z 5 ≤ marker_radius property_count
     ∧ marker_radius property_count ≤ Qc_of_Z 15).
Proof.
  split.
  - destruct (clamp_half property_count 8 20) as (Heq & Hlo & Hhi); [lia|].
    fold (marker_size property_count) in *. split; [|done].
    rewrite Heq. destruct (decide (property_count < 24)%nat);
      [rewrite decide_True by lia|rewrite decide_False by lia]; done.
  - destruct (clamp_half property_count 5 15) as (Heq & Hlo & Hhi); [lia|].
    fold (marker_radius property_count) in *. split; [|done].
    rewrite Heq. destruct (decide (property_count < 20)%nat);
      [rewrite decide_True by lia|rewrite decide_False by lia]; done.
Qed.

Lemma repetitions_small (c : nat) :
  (c < 15)%nat → repetitions c = points_per_district c.
Proof.
  intros Hc. do 15 (destruct c as [|c]; [vm_compute; reflexivity|]). lia.
Qed.

Lemma repetitions_large (c : nat) : (15 ≤ c)%nat → repetitions c = 3%nat.
Proof.
  intros Hc. unfold repetitions.
  assert (Py.min (Qc_of_nat c / Qc_of_Z 5) (Qc_of_Z 3) = Qc_of_Z 3) as ->;
    [|vm_compute; reflexivity].
  assert (Hge : Qc_of_Z 3 ≤ Qc_of_nat c / Qc_of_Z 5).
  { rewrite <- (Qcplus_0_r (_ / _)). apply (div_plus_ge _ 5 0 3); lia. }
  unfold Py.min. destruct (Qclt_le_dec _ _) as [|Hle]; [done|].
  by apply Qcle_antisym.
Qed.

Lemma repetitions_tiers (c : nat) : repetitions c = points_per_district c.
Proof.
  destruct (decide (c < 15)%nat) as [Hc|Hc]; [by apply repetitions_small|].
  rewrite repetitions_large by lia. unfold points_per_district.
  destruct (Nat.ltb_spec c 10); [lia|]. destruct (Nat.ltb_spec c 15); [lia|done].
Qed.

Lemma points_per_district_bounds (c : nat) :
  (1 ≤ points_per_district c ≤ 3)%nat.
Proof.
  unfold points_per_district.
  destruct (c <? 10)%nat; [lia|]. destruct (c <? 15)%nat; lia.
Qed.

Lemma heat_points_length (districts : list DistrictAggregate) :
  (List.length districts
   ≤ List.length (d ← districts;
                  replicate (points_per_district (property_count d))
                            (agg_lat d, agg_lon d, avg_price d))
   ≤ 3 * List.length districts)%nat.
Proof.
  induction districts as [|d districts IH]; [simpl; lia|].
  rewrite bind_cons, length_app, length_replicate.
  pose proof (points_per_district_bounds (property_count d)).
  simpl in *. lia.
Qed.

(** Prepare_heatmap_data returns the district frame and, for each
    of its districts in order, one point [lat, lon, avg_price] when the
    district has fewer than 10 properties, two when it has 10 to 14 and
    three from 15 on; so there are between one and three points per
    district. *)
Theorem prepare_heatmap_data_points (df : list GeoRecord) :
  let '(heatmap_data, districts) := prepare_heatmap_data df in
  districts = district_df df
  ∧ heatmap_data
    = (d ← districts;
       replicate (points_per_district (property_count d))
                 (agg_lat d, agg_lon d, avg_price d))
  ∧ (List.length districts ≤ List.length heatmap_data
     ≤ 3 * List.length districts)%nat.
Proof.
  unfold prepare_heatmap_data. destruct df as [|r df]; [by vm_compute|].
  split; [done|]. 
  assert (E : ∀ l : list DistrictAggregate,
             (d ← l; replicate (repetitions (property_count d))
                               (agg_lat d, agg_lon d, avg_price d))
             = (d ← l; replicate (points_per_district (property_count d))
                                 (agg_lat d, agg_lon d, avg_price d))).
  { induction l as [|d l IH]; [done|].
    by rewrite !bind_cons, IH, repetitions_tiers. }
  rewrite E. split; [done|]. apply heat_points_length.
Qed.

(** ** load_data on the price files *)

Lemma isna_false (v : pyval) :
  isna v = false ↔ v ≠ PyNone ∧ v ≠ PyNaN.
Proof. destruct v; simpl; split; try done; by intros [? ?]. Qed.

Lemma recent_true (kind : recency_column) (row : RawRow) :
  recent kind row = true
  ↔ match kind with
    | HasYear => ∃ y, raw_year row = Some y ∧ (2024 ≤ y)%Z
    | HasDateOfTransfer => ∃ t, raw_date row = Some t ∧ (cutoff_date ≤ t)%Z
    | HasNeither => True
    end.
Proof.
  destruct kind; simpl; [| |done].
  - destruct (raw_year row) as [y|].
    + rewrite bool_decide_eq_true. split; [by exists y|].
      by intros (y' & [= <-] & ?).
    + split; [done|]. by intros (y' & ? & _).
  - destruct (raw_date row) as [t|].
    + rewrite bool_decide_eq_true. split; [by exists t|].
      by intros (t' & [= <-] & ?).
    + split; [done|]. by intros (t' & ? & _).
Qed.

Lemma clean_row_Some (kind : recency_column) (area_label : string)
    (row : RawRow) (r : PriceRecord) :
  clean_row kind area_label row = Some r
  ↔ ∃ p, kept_row kind row p
         ∧ r = {| postcode := raw_postcode row; priceper := p;
                  area := area_label |}.
Proof.
  unfold clean_row, kept_row. split.
  - destruct (raw_priceper row) as [price|]; [|done].
    destruct (isna (raw_postcode row)) eqn:Hna; [done|].
    destruct (bool_decide (0 < price)) eqn:Hpos; [|done].
    destruct (bool_decide (price < Qc_of_Z 50000)) eqn:Hmax; [|done].
    destruct (recent kind row) eqn:Hrecent; [|done].
    cbn [negb andb]. intros [= <-]. exists price.
    apply isna_false in Hna as [? ?]. apply recent_true in Hrecent.
    apply bool_decide_eq_true in Hpos, Hmax. done.
  - intros (p & (-> & Hnone & Hnan & Hpos & Hmax & Hrecent) & ->).
    rewrite (proj2 (isna_false _) (conj Hnone Hnan)).
    rewrite !bool_decide_eq_true_2 by done.
    by rewrite (proj2 (recent_true _ _) Hrecent).
Qed.

Lemma elem_of_concat {A : Type} (x : A) (ls : list (list A)) :
  x ∈ concat ls ↔ ∃ l, x ∈ l ∧ l ∈ ls.
Proof.
  induction ls as [|l ls IH]; simpl.
  - split; [by intros ?%elem_of_nil|]. by intros (l & _ & ?%elem_of_nil).
  - rewrite elem_of_app, IH. split.
    + intros [Hx|(l' & ? & ?)].
      * exists l. split; [done|apply list_elem_of_here].
      * exists l'. split; [done|by apply list_elem_of_further].
    + intros (l' & Hx & [->|Hl']%elem_of_cons); [by left|right; eauto].
Qed.

(** The records of the concatenated frame are the kept rows among the
    rows read, each with the area label of its file. *)
Lemma all_data_elem (max_files max_rows_per_file : Z)
    (csv_files : list CsvFile) (r : PriceRecord) :
  r ∈ concat (all_data max_files max_rows_per_file csv_files)
  ↔ ∃ f row p,
      row_read max_files max_rows_per_file csv_files f row
      ∧ kept_row (recency f) row p
      ∧ r = {| postcode := raw_postcode row; priceper := p;
               area := area_name (basename f) |}.
Proof.
  rewrite elem_of_concat. unfold all_data, row_read. split.
  - intros (frame & Hr & Hframe).
    apply list_elem_of_omap in Hframe as (f & Hf & Hclean).
    unfold clean_file in Hclean.
    destruct (Z.ltb_spec max_rows_per_file 0) as [|Hrows]; [done|].
    destruct (file_rows f) as [rows|] eqn:Hfile; [|done].
    cbn [mbind option_bind] in Hclean. injection Hclean as <-.
    apply list_elem_of_omap in Hr as (row & Hrow & Hcl).
    apply clean_row_Some in Hcl as (p & Hkept & ->).
    exists f, row, p. eauto 10.
  - intros (f & row & p & (Hrows & Hf & rows & Hfile & Hrow) & Hkept & ->).
    exists (omap (clean_row (recency f) (area_name (basename f)))
                 (take (Z.to_nat max_rows_per_file) rows)).
    split.
    + apply list_elem_of_omap. exists row. split; [done|].
      apply clean_row_Some. by exists p.
    + apply list_elem_of_omap. exists f. split; [done|].
      unfold clean_file.
      destruct (Z.ltb_spec max_rows_per_file 0) as [|_]; [lia|].
      by rewrite Hfile.
Qed.

Lemma load_data_files_eq (self : dashboard) (max_files max_rows_per_file : Z)
    (csv_files : list CsvFile) :
  load_data_files self max_files max_rows_per_file csv_files
  = load_data self (concat (all_data max_files max_rows_per_file csv_files)).
Proof.
  unfold load_data_files.
  by destruct (all_data max_files max_rows_per_file csv_files).
Qed.

Lemma replace_underscore (s : string) :
  all_chars (λ c, negb (Ascii.eqb c "_")) (Py.replace "_" " " s) = true.
Proof.
  unfold Py.replace. induction s as [|c s IH]; [done|].
  cbn [Py.replace_aux String.prefix].
  destruct (ascii_dec "_" c) as [<-|Hc].
  - destruct s; exact IH.
  - cbn [all_chars]. rewrite IH, andb_true_r.
    apply negb_true_iff, Ascii.eqb_neq. congruence.
Qed.

(** A cell for which the lookup of a loaded dataset finds a coordinate
    is a non-empty string. *)
Lemma located_is_string (self : dashboard) (v : pyval) (c : coord) :
  Dashboard.get_coordinates self v = Ok (Some c) →
  c ≠ fallback →
  ∃ s, v = PyStr s ∧ s ≠ "".
Proof.
  unfold Dashboard.get_coordinates.
  destruct (postcode_geocoder self) as [d|]; [|by intros [= <-]].
  destruct v as [| |s|q]; try done.
  - intros Hget _. exists s. split; [done|].
    intros ->. simpl in Hget. discriminate.
  - simpl. by destruct (bool_decide (q = 0%Qc)).
Qed.

(** load_data on a list of price files.  It returns exactly when no
    dataset is loaded or no kept row among the rows read holds a truthy
    non-string postcode (NaN cannot be one, a number other than zero
    can); otherwise the AttributeError of get_coordinates leaves it.
    When it returns, the records it returns are exactly the kept rows
    among the rows read whose postcode is found at a coordinate other
    than the fallback, each with its price, its postcode, the area label
    of its file and that coordinate.  Every such record has a non-empty
    string as postcode and an area label without underscore. *)
Theorem load_data_files_clean (self : dashboard)
    (max_files max_rows_per_file : Z) (csv_files : list CsvFile) :
  ((∃ out, load_data_files self max_files max_rows_per_file csv_files = Ok out)
   ↔ postcode_geocoder self = None
     ∨ ∀ f row p,
         row_read max_files max_rows_per_file csv_files f row →
         kept_row (recency f) row p →
         ¬ truthy_non_string (raw_postcode row))
  ∧ (∀ e, load_data_files self max_files max_rows_per_file csv_files = Raise e →
          e = AttributeError)
  ∧ ∀ out,
      load_data_files self max_files max_rows_per_file csv_files = Ok out →
      ∀ g,
        g ∈ out.*2
        ↔ ∃ f row p c,
            row_read max_files max_rows_per_file csv_files f row
            ∧ kept_row (recency f) row p
            ∧ Dashboard.get_coordinates self (raw_postcode row) = Ok (Some c)
            ∧ c ≠ fallback
            ∧ (∃ s, raw_postcode row = PyStr s ∧ s ≠ "")
            ∧ all_chars (λ a, negb (Ascii.eqb a "_")) (area_name (basename f))
              = true
            ∧ g = {| price_record :=
                       {| postcode := raw_postcode row; priceper := p;
                          area := area_name (basename f) |};
                     lat := c.1; lon := c.2 |}.
Proof.
  rewrite load_data_files_eq.
  set (df := concat (all_data max_files max_rows_per_file csv_files)).
  assert (Hcells : Forall (λ r, ¬ truthy_non_string (postcode r)) df
                   ↔ ∀ f row p,
                       row_read max_files max_rows_per_file csv_files f row →
                       kept_row (recency f) row p →
                       ¬ truthy_non_string (raw_postcode row)).
  { rewrite list.Forall_forall. split.
    - intros Hall f row p Hread Hkept.
      apply (Hall {| postcode := raw_postcode row; priceper := p;
                     area := area_name (basename f) |}).
      apply all_data_elem. by exists f, row, p.
    - intros Hall r (f & row & p & Hread & Hkept & ->)%all_data_elem.
      by apply (Hall f row p). }
  split; [by rewrite load_data_returns_iff, Hcells|].
  split; [apply load_data_raises|].
  intros out Hout g. split.
  - intros ([i g'] & -> & Hin)%list_elem_of_fmap.
    apply (load_data_elem _ _ _ _ _ Hout) in Hin
      as (r & c & Hr & Hget & Hne & ->).
    apply list_elem_of_lookup_2, all_data_elem in Hr
      as (f & row & p & Hread & Hkept & ->).
    exists f, row, p, c. cbn [postcode] in Hget.
    split; [done|]. split; [done|]. split; [done|]. split; [done|].
    split; [by apply (located_is_string self _ c)|].
    split; [apply replace_underscore|done].
  - intros (f & row & p & c & Hread & Hkept & Hget & Hne & _ & _ & ->).
    assert (Hr : {| postcode := raw_postcode row; priceper := p;
                    area := area_name (basename f) |} ∈ df).
    { apply all_data_elem. by exists f, row, p. }
    apply list_elem_of_lookup in Hr as [i Hi].
    apply list_elem_of_fmap.
    eexists (i, _). split; [reflexivity|].
    apply (load_data_elem _ _ _ _ _ Hout). eauto 10.
Qed.

(** A price file whose postcode column read as numbers: with a dataset
    loaded, load_data raises AttributeError; with none, every lookup is
    the fallback and load_data returns an empty frame. *)
Example load_data_files_numeric_postcodes :
  let row := {| raw_priceper := Some (Qc_of_Z 3000);
                raw_postcode := PyNum (Qc_of_Z 12345);
                raw_year := Some 2024%Z; raw_date := None |} in
  let csv_files := [ {| basename := "Barnet_link_26122024.csv";
                        file_rows := Some [row]; recency := HasYear |} ] in
  load_data_files
    {| postcode_geocoder := Some {[ "N2 9QL" := (Qc_of_Z 51, Qc_of_Z 0) ]} |}
    1 10 csv_files
  = Raise AttributeError
  ∧ load_data_files {| postcode_geocoder := None |} 1 10 csv_files = Ok [].
Proof. by vm_compute. Qed.

Lemma omap_length {A B : Type} (f : A → option B) (l : list A) :
  (List.length (omap f l) ≤ List.length l)%nat.
Proof.
  induction l as [|a l IH]; [done|]. cbn [omap list_omap].
  destruct (f a); simpl in *; lia.
Qed.

Lemma concat_length_bound {A : Type} (k : nat) (ls : list (list A)) :
  Forall (λ l, List.length l ≤ k)%nat ls →
  (List.length (concat ls) ≤ List.length ls * k)%nat.
Proof.
  induction 1 as [|l ls Hl _ IH]; [done|].
  cbn [concat]. rewrite length_app. simpl. lia.
Qed.

Lemma list_slice_to_length {A : Type} (n : Z) (l : list A) :
  (0 ≤ n)%Z → (List.length (Py.list_slice_to n l) ≤ Z.to_nat n)%nat.
Proof.
  intros Hn. unfold Py.list_slice_to.
  destruct (Z.leb_spec 0 n); [|lia]. rewrite length_take. lia.
Qed.

Lemma all_data_length (max_files max_rows_per_file : Z)
    (csv_files : list CsvFile) :
  (0 ≤ max_files)%Z →
  (List.length (concat (all_data max_files max_rows_per_file csv_files))
   ≤ Z.to_nat max_files * Z.to_nat max_rows_per_file)%nat.
Proof.
  intros Hfiles.
  etrans; [apply (concat_length_bound (Z.to_nat max_rows_per_file))|].
  - apply list.Forall_forall. intros frame Hframe.
    apply list_elem_of_omap in Hframe as (f & _ & Hclean).
    unfold clean_file in Hclean.
    destruct (max_rows_per_file <? 0)%Z; [done|].
    destruct (file_rows f) as [rows|]; [|done].
    cbn [mbind option_bind] in Hclean. injection Hclean as <-.
    etrans; [apply omap_length|]. rewrite length_take. lia.
  - apply Nat.mul_le_mono_r. unfold all_data.
    etrans; [apply omap_length|]. by apply list_slice_to_length.
Qed.

(** The two parameters of load_data bound its result: for a
    non-negative [max_files], what it returns holds at most
    [max_files * max_rows_per_file] records, and none when
    [max_rows_per_file] is negative, whatever the files hold. *)
Theorem load_data_files_bounded (self : dashboard)
    (max_files max_rows_per_file : Z) (csv_files : list CsvFile)
    (out : list (nat * GeoRecord)) :
  load_data_files self max_files max_rows_per_file csv_files = Ok out →
  (0 ≤ max_files)%Z →
  (List.length out ≤ Z.to_nat max_files * Z.to_nat max_rows_per_file)%nat.
Proof.
  rewrite load_data_files_eq.
  intros (cs & _ & ->)%load_data_Ok Hfiles.
  etrans; [|by apply (all_data_length max_files max_rows_per_file csv_files)].
  rewrite <- (length_fmap fst).
  etrans; [apply sublist_length, load_rows_order|]. by rewrite length_seq.
Qed.

Lemma load_data_files_bounded_witness :
  let self := {| postcode_geocoder :=
                   Some {[ "N2 9QL" := (Qc_of_Z 51, Qc_of_Z 0) ]} |} in
  let row price := {| raw_priceper := Some (Qc_of_Z price);
                      raw_postcode := PyStr "n2 9ql";
                      raw_year := Some 2024%Z; raw_date := None |} in
  let csv_files := [ {| basename := "Barnet_link_26122024.csv";
                        file_rows := Some [row 3000%Z; row 4000%Z; row 5000%Z];
                        recency := HasYear |} ] in
  ∃ out,
    load_data_files self 1 2 csv_files = Ok out
    ∧ (0 ≤ 1)%Z
    ∧ (List.length out ≤ Z.to_nat 1 * Z.to_nat 2)%nat.
Proof.
  intros self row csv_files.
  assert (H : ∃ out, load_data_files self 1 2 csv_files = Ok out).
  { destruct (load_data_files self 1 2 csv_files) as [out|e] eqn:E;
      [by exists out|vm_compute in E; discriminate]. }
  destruct H as [out Hout].
  assert (H1 : (0 ≤ 1)%Z) by lia.
  exists out. split; [exact Hout|]. split; [exact H1|].
  exact (load_data_files_bounded self 1 2 csv_files out Hout H1).
Defined.

(** Load_data followed by prepare_heatmap_data: the weight of
    every heat-map point is a price per square metre strictly between 0
    and 50000, since it is the mean of cleaned prices. *)
Theorem heat_points_price_bounds (self : dashboard)
    (max_files max_rows_per_file : Z) (csv_files : list CsvFile)
    (out : list (nat * GeoRecord)) (point : heat_point) :
  load_data_files self max_files max_rows_per_file csv_files = Ok out →
  point ∈ (prepare_heatmap_data (out.*2)).1 →
  0 < point.2 ∧ point.2 < Qc_of_Z 50000.
Proof.
  intros Hout Hpoint. rewrite load_data_files_eq in Hout.
  assert (Hall : Forall (λ g, 0 < priceper (price_record g)
                              ∧ priceper (price_record g) < Qc_of_Z 50000)
                        (out.*2)).
  { apply list.Forall_forall. intros g Hg.
    apply list_elem_of_fmap in Hg as ([i g'] & -> & Hin).
    apply (load_data_elem _ _ _ _ _ Hout) in Hin as (r & c & Hr & _ & _ & ->).
    apply list_elem_of_lookup_2, all_data_elem in Hr
      as (f & row & p & _ & (_ & _ & _ & Hpos & Hmax & _) & ->).
    done. }
  unfold prepare_heatmap_data in Hpoint.
  destruct (out.*2) as [|g gs] eqn:Hgs; [by apply elem_of_nil in Hpoint|].
  cbn [fst] in Hpoint.
  apply list_elem_of_bind in Hpoint as (d & Hpoint & Hd).
  apply elem_of_replicate_inv in Hpoint as ->. cbn [snd].
  destruct (district_df_prices
              (λ x, 0 < x ∧ x < Qc_of_Z 50000) _ _ Hall Hd)
    as (prices & Hmean & Hin).
  by apply (mean_strictly_between _ _ _ prices).
Qed.

Lemma heat_points_price_bounds_witness :
  let self := {| postcode_geocoder :=
                   Some {[ "N2 9QL" := (Qc_of_Z 51, Qc_of_Z 0) ]} |} in
  let row price := {| raw_priceper := Some (Qc_of_Z price);
                      raw_postcode := PyStr "n2 9ql";
                      raw_year := Some 2024%Z; raw_date := None |} in
  let csv_files := [ {| basename := "Barnet_link_26122024.csv";
                        file_rows := Some [row 3000%Z; row 60000%Z; row 4000%Z;
                                           row 5000%Z];
                        recency := HasYear |} ] in
  ∃ out point,
    load_data_files self 1 10 csv_files = Ok out
    ∧ point ∈ (prepare_heatmap_data (out.*2)).1
    ∧ 0 < point.2 ∧ point.2 < Qc_of_Z 50000.
Proof.
  intros self row csv_files.
  assert (H : ∃ out, load_data_files self 1 10 csv_files = Ok out
                     ∧ ∃ point, point ∈ (prepare_heatmap_data (out.*2)).1).
  { destruct (load_data_files self 1 10 csv_files) as [out|e] eqn:E;
      [|vm_compute in E; discriminate].
    exists out. split; [reflexivity|].
    assert (E' : (prepare_heatmap_data (out.*2)).1
                 = (prepare_heatmap_data (out.*2)).1) by reflexivity.
    destruct ((prepare_heatmap_data (out.*2)).1) as [|point l] in E' at 2 |- *.
    - vm_compute in E. injection E as <-. vm_compute in E'. discriminate.
    - exists point. apply list_elem_of_here. }
  destruct H as (out & Hout & point & Hpoint).
  exists out, point. split; [exact Hout|]. split; [exact Hpoint|].
  exact (heat_points_price_bounds self 1 10 csv_files out point Hout Hpoint).
Defined.
